(** * video_downloader.py: a shallow embedding and its verified properties

    The program is an interactive shell around an extraction library: a
    static catalog of platforms, detection of a platform from a URL by
    substring search, a two-phase download (probe, confirm, fetch) and a
    menu loop.  The embedding threads one explicit state through the code:
    the [VideoDownloader] object's fields, the replies the terminal prompts
    will give, the extractor's answers, and the log of everything written
    to the console.

    Conventions.
    - A Python [str] is a [string]; [lower] and [strip] act on the ASCII
      range and leave every other character as it is, which is what
      [str.lower] and [str.strip] do on ASCII text.
    - A Python [int] is a [Z]; a [float] is a dyadic number [m * 2^e], an
      infinity or a NaN.
    - [float_repr] (Python's [str] of a float) and [int_of_str] (Python's
      [int] of a string) are builtins of the interpreter; they are
      parameters of the development.
    - The extractor and the terminal are black boxes: the extractor is an
      oracle, the terminal a list of replies; what the terminal draws is
      recorded as one event per call. *)

From Stdlib Require Import ZArith String Ascii List Lia DecimalString.
From stdpp Require Import base option list gmap strings.

Open Scope Z_scope.

(** ** Strings *)

Module Str.

Definition lower_char (c : ascii) : ascii :=
  let n := nat_of_ascii c in
  if (65 <=? n)%nat && (n <=? 90)%nat then ascii_of_nat (n + 32) else c.

(** [str.lower()] *)
Fixpoint lower (s : string) : string :=
  match s with
  | EmptyString => EmptyString
  | String c s' => String (lower_char c) (lower s')
  end.

(** [s] begins with [d]. *)
Fixpoint startswith (d s : string) : bool :=
  match d, s with
  | EmptyString, _ => true
  | String a d', String b s' => bool_decide (a = b) && startswith d' s'
  | String _ _, EmptyString => false
  end.

(** [d in s]: [d] occurs in [s] as a contiguous run of characters. *)
Fixpoint contains (d s : string) : bool :=
  startswith d s ||
  match s with
  | EmptyString => false
  | String _ s' => contains d s'
  end.

(** The characters [str.strip()] removes, in the ASCII range. *)
Definition is_space (c : ascii) : bool :=
  let n := nat_of_ascii c in
  ((9 <=? n)%nat && (n <=? 13)%nat) || ((28 <=? n)%nat && (n <=? 32)%nat).

Fixpoint lstrip (s : string) : string :=
  match s with
  | EmptyString => EmptyString
  | String c s' => if is_space c then lstrip s' else s
  end.

Fixpoint rstrip (s : string) : string :=
  match s with
  | EmptyString => EmptyString
  | String c s' =>
      match rstrip s' with
      | EmptyString => if is_space c then EmptyString else String c EmptyString
      | r => String c r
      end
  end.

(** [str.strip()] *)
Definition strip (s : string) : string := rstrip (lstrip s).

(** [s[:n]] for [0 <= n] *)
Fixpoint take (n : nat) (s : string) : string :=
  match n, s with
  | S n', String c s' => String c (take n' s')
  | _, _ => EmptyString
  end.

(** [str(z)] for an [int] *)
Definition of_Z (z : Z) : string := NilZero.string_of_int (Z.to_int z).

Definition eqb (a b : string) : bool := bool_decide (a = b).

End Str.

(** ** Exceptions and results *)

Inductive exn_class :=
| DownloadError        (* yt_dlp.utils.DownloadError, the extractor's error *)
| TypeError
| ValueError
| OverflowError
| KeyError
| EOFError
| OtherException       (* any other subclass of Exception *)
| KeyboardInterrupt    (* BaseException only *)
| SystemExit.          (* BaseException only *)

Record exn := Exn { exn_kind : exn_class; exn_msg : string }.

(** [isinstance(e, Exception)]: what a clause [except Exception] catches. *)
Definition is_Exception (e : exn) : bool :=
  match exn_kind e with
  | KeyboardInterrupt | SystemExit => false
  | _ => true
  end.

Inductive result (A : Type) :=
| Ok (a : A)
| Raise (e : exn).
Arguments Ok {A} a.
Arguments Raise {A} e.

(** ** Python values held by the metadata dictionary *)

Inductive pyfloat :=
| Finite (m e : Z)          (* the number m * 2^e *)
| Infinity (negative : bool)
| NaN.

Inductive pyval :=
| PNone
| PInt (z : Z)
| PFloat (f : pyfloat)
| PStr (s : string).

#[global] Instance pyfloat_eq_dec : EqDecision pyfloat.
Proof. solve_decision. Defined.
#[global] Instance pyval_eq_dec : EqDecision pyval.
Proof. solve_decision. Defined.
#[global] Instance exn_class_eq_dec : EqDecision exn_class.
Proof. solve_decision. Defined.
#[global] Instance exn_eq_dec : EqDecision exn.
Proof. solve_decision. Defined.

(** [dict.get(key, default)] *)
Definition dict_get (d : gmap string pyval) (key : string) (dflt : pyval) : pyval :=
  default dflt (d !! key).

Module Py.

(** [isinstance(v, int)] *)
Definition is_int (v : pyval) : bool :=
  match v with PInt _ => true | _ => false end.

(** Truth value of an object, as [if v] takes it. *)
Definition truthy (v : pyval) : bool :=
  match v with
  | PNone => false
  | PInt z => negb (z =? 0)
  | PFloat (Finite m _) => negb (m =? 0)
  | PFloat _ => true
  | PStr s => negb (Str.eqb s "")
  end.

(** [divmod(a, 60)]: floor division and the remainder of the divisor's sign. *)
Definition divmod (a b : Z) : Z * Z := (a / b, a mod b).

(** Nearest integer to [num / den] for [0 < den], ties to the even one. *)
Definition round_half_even (num den : Z) : Z :=
  let q := num / den in
  let r := num mod den in
  if 2 * r <? den then q
  else if den <? 2 * r then q + 1
  else if Z.even q then q else q + 1.

(** [n / (1024 * 1024)] for an [int] n: the correctly rounded double, or
    [OverflowError] when the quotient exceeds the range of a double. *)
Definition true_div_MiB (n : Z) : result pyfloat :=
  if n =? 0 then Ok (Finite 0 0)
  else
    let a := Z.abs n in
    let bits := Z.log2 a + 1 in
    let shift := Z.max 0 (bits - 53) in
    let mant := round_half_even a (2 ^ shift) in
    let e := shift - Z.log2 (1024 * 1024) in
    if (0 <=? e) && (2 ^ 1024 <=? mant * 2 ^ e)
    then Raise (Exn OverflowError "integer division result too large for a float")
    else Ok (Finite (Z.sgn n * mant) e).

Definition two_digits (z : Z) : string :=
  if z <? 10 then "0" +:+ Str.of_Z z else Str.of_Z z.

(** [f"{x:.2f}"] *)
Definition format_2f (x : pyfloat) : string :=
  match x with
  | Finite m e =>
      let a := Z.abs m in
      let h := if 0 <=? e then a * 100 * 2 ^ e
               else round_half_even (a * 100) (2 ^ (- e)) in
      (if m <? 0 then "-" else "") +:+
      Str.of_Z (h / 100) +:+ "." +:+ two_digits (h mod 100)
  | Infinity false => "inf"
  | Infinity true => "-inf"
  | NaN => "nan"
  end.

(** Digits grouped by three from the right, as the [,] format option does. *)
Fixpoint group3 (rev_digits : list ascii) (k : nat) (acc : list ascii) : list ascii :=
  match rev_digits with
  | [] => acc
  | c :: rest =>
      match k with
      | O => group3 rest 2 (c :: ","%char :: acc)
      | S k' => group3 rest k' (c :: acc)
      end
  end.

(** [f"{z:,}"] *)
Definition format_thousands (z : Z) : string :=
  let digits := list_ascii_of_string (Str.of_Z (Z.abs z)) in
  (if z <? 0 then "-" else "") +:+
  string_of_list_ascii
    (match rev digits with
     | [] => []
     | c :: rest => group3 rest 2 [c]
     end).

(** [int(f)] for a float: truncation towards zero. *)
Definition int_of_float (f : pyfloat) : result Z :=
  match f with
  | Finite m e => Ok (if 0 <=? e then m * 2 ^ e else Z.quot m (2 ^ (- e)))
  | Infinity _ => Raise (Exn OverflowError "cannot convert float infinity to integer")
  | NaN => Raise (Exn ValueError "cannot convert float NaN to integer")
  end.

End Py.

(** ** The platform catalog *)

(** [@dataclass PlatformConfig] *)
Record PlatformConfig := {
  name : string;
  icon : string;
  examples : list string;
  domains : list string;
  format_preference : string
}.

#[global] Instance PlatformConfig_eq_dec : EqDecision PlatformConfig.
Proof. solve_decision. Defined.

(** The default of the field [format_preference]. *)
Definition default_format_preference : string := "best".

Module Platform.

Definition YOUTUBE : PlatformConfig := {|
  name := "YouTube";
  icon := "🎬";
  domains := ["youtube.com"; "youtu.be"];
  examples := [
    "https://www.youtube.com/watch?v=dQw4w9WgXcQ";
    "https://youtu.be/dQw4w9WgXcQ";
    "https://www.youtube.com/shorts/xxxxxxxxxxx"
  ];
  format_preference := "bestvideo[ext=mp4]+bestaudio[ext=m4a]/best[ext=mp4]/best"
|}.

Definition INSTAGRAM : PlatformConfig := {|
  name := "Instagram";
  icon := "📸";
  domains := ["instagram.com"];
  examples := [
    "https://www.instagram.com/reel/CxxxxxXXXXX/";
    "https://www.instagram.com/p/CxxxxxXXXXX/";
    "https://www.instagram.com/tv/CxxxxxXXXXX/"
  ];
  format_preference := default_format_preference
|}.

Definition FACEBOOK : PlatformConfig := {|
  name := "Facebook";
  icon := "👥";
  domains := ["facebook.com"; "fb.watch"];
  examples := [
    "https://www.facebook.com/watch?v=1234567890";
    "https://fb.watch/xxxxxxxxxxx/";
    "https://www.facebook.com/username/videos/1234567890"
  ];
  format_preference := default_format_preference
|}.

Definition TWITTER : PlatformConfig := {|
  name := "Twitter/X";
  icon := "🐦";
  domains := ["twitter.com"; "x.com"];
  examples := [
    "https://twitter.com/username/status/1234567890";
    "https://x.com/username/status/1234567890"
  ];
  format_preference := default_format_preference
|}.

Definition PINTEREST : PlatformConfig := {|
  name := "Pinterest";
  icon := "📌";
  domains := ["pinterest.com"];
  examples := [
    "https://www.pinterest.com/pin/1234567890/"
  ];
  format_preference := default_format_preference
|}.

(** [get_all]: the dictionary literal, in insertion order. *)
Definition get_all : list (string * PlatformConfig) := [
  ("1", YOUTUBE);
  ("2", INSTAGRAM);
  ("3", FACEBOOK);
  ("4", TWITTER);
  ("5", PINTEREST)
].

(** [dict.values()] *)
Definition values (d : list (string * PlatformConfig)) : list PlatformConfig :=
  map snd d.

(** [d[key]] on an insertion-ordered dictionary; [None] stands for KeyError. *)
Fixpoint getitem (d : list (string * PlatformConfig)) (key : string)
  : option PlatformConfig :=
  match d with
  | [] => None
  | (k, v) :: rest => if Str.eqb k key then Some v else getitem rest key
  end.

(** [any(domain in url.lower() for domain in platform.domains)] *)
Definition any_domain_in (platform : PlatformConfig) (url : string) : bool :=
  existsb (fun domain => Str.contains domain (Str.lower url)) (domains platform).

(** The [for] loop of [detect_platform] over the remaining descriptors. *)
Fixpoint detect_in (ps : list PlatformConfig) (url : string)
  : option PlatformConfig :=
  match ps with
  | [] => None
  | platform :: rest =>
      if any_domain_in platform url then Some platform else detect_in rest url
  end.

Definition detect_platform (url : string) : option PlatformConfig :=
  detect_in (values get_all) url.

End Platform.

(** ** The extractor's options and the console *)

(** The dictionary built by [configure_ydl_options].  Its [progress_hooks]
    entry, a fresh [DownloadProgressHook], only draws a progress bar while
    the extractor transfers data and is part of the extractor's call. *)
Record ydl_options := {
  outtmpl : string;
  format : string;
  quiet : bool;
  no_warnings : bool;
  nocheckcertificate : bool;
  user_agent : string
}.

#[global] Instance ydl_options_eq_dec : EqDecision ydl_options.
Proof. solve_decision. Defined.

(** Everything the program shows or asks, and every call it makes to the
    extractor, in the order it happens.  A prompt or an extractor call is
    logged with what it returned. *)
Inductive event :=
| Print (text : string)                       (* console.print(text); "" for a bare print *)
| Status (text : string)                      (* console.status(text) *)
| BannerText                                  (* show_banner *)
| PlatformsTable (rows : list (list string))  (* show_platforms_menu *)
| GuidePanel (title heading : string)
    (branches : list (string * string)) (tips : list string)   (* show_platform_guide *)
| VideoInfoTable (rows : list (string * pyval))                (* show_video_info *)
| SuccessPanel (location : string)            (* show_success_message *)
| ErrorPanel (error : string)                 (* show_error_message *)
| StatisticsTable (rows : list (string * string))              (* show_statistics *)
| FarewellPanel                               (* the closing panel of run *)
| PromptAsk (prompt : string) (choices : list string) (dflt : option string)
    (reply : result string)
| ConfirmAsk (prompt : string) (dflt : bool) (reply : result bool)
| ExtractInfo (url : string) (opts : ydl_options)
    (outcome : result (gmap string pyval))
| Download (urls : list string) (opts : ydl_options) (outcome : result unit).

(** The extractor, a black box: what a probe and a transfer answer may
    depend on everything that happened before.  [prepare_filename] expands
    the output template on the metadata. *)
Record YoutubeDL := {
  extract_info : list event -> string -> ydl_options -> result (gmap string pyval);
  download : list event -> list string -> ydl_options -> result unit;
  prepare_filename : gmap string pyval -> ydl_options -> string
}.

(** The state the program runs in: the fields of the [VideoDownloader]
    object, the replies the terminal will give to the next prompts (an
    exhausted list is a closed input stream), the extractor, and the log. *)
Record state := {
  output_dir : string;
  platforms : list (string * PlatformConfig);
  download_history : list pyval;
  prompt_replies : list (result string);
  confirm_replies : list (result bool);
  ydl : YoutubeDL;
  console_log : list event
}.

Definition set_download_history (h : list pyval) (s : state) : state :=
  {| output_dir := output_dir s; platforms := platforms s;
     download_history := h;
     prompt_replies := prompt_replies s; confirm_replies := confirm_replies s;
     ydl := ydl s; console_log := console_log s |}.

Definition set_prompt_replies (l : list (result string)) (s : state) : state :=
  {| output_dir := output_dir s; platforms := platforms s;
     download_history := download_history s;
     prompt_replies := l; confirm_replies := confirm_replies s;
     ydl := ydl s; console_log := console_log s |}.

Definition set_confirm_replies (l : list (result bool)) (s : state) : state :=
  {| output_dir := output_dir s; platforms := platforms s;
     download_history := download_history s;
     prompt_replies := prompt_replies s; confirm_replies := l;
     ydl := ydl s; console_log := console_log s |}.

Definition set_console_log (l : list event) (s : state) : state :=
  {| output_dir := output_dir s; platforms := platforms s;
     download_history := download_history s;
     prompt_replies := prompt_replies s; confirm_replies := confirm_replies s;
     ydl := ydl s; console_log := l |}.

(** ** Computations: state passing with exceptions *)

Definition M (A : Type) : Type := state -> result A * state.

#[global] Instance M_ret : MRet M := fun A a s => (Ok a, s).

#[global] Instance M_bind : MBind M := fun A B f m s =>
  match m s with
  | (Ok a, s') => f a s'
  | (Raise e, s') => (Raise e, s')
  end.

Definition lift {A} (r : result A) : M A := fun s => (r, s).

(** [try: body except Exception as e: handler(e)].  An exception that is
    not an instance of [Exception] passes through. *)
Definition try_except {A} (body : M A) (handler : exn -> M A) : M A := fun s =>
  match body s with
  | (Ok a, s') => (Ok a, s')
  | (Raise e, s') => if is_Exception e then handler e s' else (Raise e, s')
  end.

Definition get {A} (f : state -> A) : M A := fun s => (Ok (f s), s).

Definition emit (ev : event) : M unit := fun s =>
  (Ok tt, set_console_log (console_log s ++ [ev]) s).

(** [console.print(text)]; [console.print()] prints the empty line. *)
Definition console_print (text : string) : M unit := emit (Print text).

Definition end_of_input : exn := Exn EOFError "EOF when reading a line".

(** What the terminal answers next; a closed input stream raises. *)
Definition next_reply {A} (replies : list (result A)) : result A :=
  match replies with
  | [] => Raise end_of_input
  | r :: _ => r
  end.

(** [Prompt.ask(prompt, choices=..., default=...)]: the next reply of the
    terminal. *)
Definition Prompt_ask (prompt : string) (choices : list string)
    (dflt : option string) : M string := fun s =>
  let reply := next_reply (prompt_replies s) in
  let s' := set_prompt_replies (tail (prompt_replies s)) s in
  (reply, set_console_log (console_log s ++ [PromptAsk prompt choices dflt reply]) s').

(** [Confirm.ask(prompt, default=...)] *)
Definition Confirm_ask (prompt : string) (dflt : bool) : M bool := fun s =>
  let reply := next_reply (confirm_replies s) in
  let s' := set_confirm_replies (tail (confirm_replies s)) s in
  (reply, set_console_log (console_log s ++ [ConfirmAsk prompt dflt reply]) s').

(** [ydl.extract_info(url, download=False)] *)
Definition ydl_extract_info (url : string) (opts : ydl_options)
  : M (gmap string pyval) := fun s =>
  let outcome := extract_info (ydl s) (console_log s) url opts in
  (outcome, set_console_log (console_log s ++ [ExtractInfo url opts outcome]) s).

(** [ydl.download(urls)] *)
Definition ydl_download (urls : list string) (opts : ydl_options) : M unit := fun s =>
  let outcome := download (ydl s) (console_log s) urls opts in
  (outcome, set_console_log (console_log s ++ [Download urls opts outcome]) s).

(** ** Paths *)

Module Path.

(** [s.split("/")] *)
Fixpoint components (s : string) : list string :=
  match s with
  | EmptyString => [""]
  | String c s' =>
      if bool_decide (c = "/"%char) then "" :: components s'
      else match components s' with
           | [] => [String c ""]
           | x :: xs => String c x :: xs
           end
  end.

(** [Path(p).name]: the last component, empty and [.] components dropped. *)
Definition name (p : string) : string :=
  default "" (last (filter (fun c => c ≠ "" ∧ c ≠ ".") (components p))).

(** [dir / file] for a directory name [dir] and a relative [file]. *)
Definition join (dir file : string) : string :=
  if Str.eqb file "" then dir else dir +:+ "/" +:+ file.

End Path.

(** [enumerate(l, i)] *)
Fixpoint enumerate {A} (i : Z) (l : list A) : list (Z * A) :=
  match l with
  | [] => []
  | x :: rest => (i, x) :: enumerate (i + 1) rest
  end.

Inductive loop_control := Continue | Break.

(** Membership in an explicit list of events: refuted, or shown. *)
Ltac elem_inv H :=
  repeat (apply elem_of_cons in H as [H|H]; [try discriminate H |]);
  try (apply elem_of_nil in H; destruct H).

Ltac elem_now :=
  repeat first [apply list_elem_of_here | apply list_elem_of_further].

Section Downloader.

(** [str(f)] for a float and [int(s)] for a string, from the interpreter. *)
Variable float_repr : pyfloat -> string.
Variable int_of_str : string -> result Z.

(** [int(v)] *)
Definition py_int (v : pyval) : result Z :=
  match v with
  | PInt z => Ok z
  | PFloat f => Py.int_of_float f
  | PStr s => int_of_str s
  | PNone =>
      Raise (Exn TypeError
        "int() argument must be a string, a bytes-like object or a real number, not 'NoneType'")
  end.

(** [str(v)] *)
Definition py_str (v : pyval) : string :=
  match v with
  | PNone => "None"
  | PInt z => Str.of_Z z
  | PFloat f => float_repr f
  | PStr s => s
  end.

(** [type(v).__name__] *)
Definition type_name (v : pyval) : string :=
  match v with
  | PNone => "NoneType"
  | PInt _ => "int"
  | PFloat _ => "float"
  | PStr _ => "str"
  end.

(** The exception of [len(v)] for a value that has no length. *)
Definition no_len (v : pyval) : exn :=
  Exn TypeError ("object of type '" +:+ type_name v +:+ "' has no len()").

(** *** UIManager *)

Definition show_banner : M unit := emit BannerText.

Definition platforms_menu_rows (platforms : list (string * PlatformConfig))
  : list (list string) :=
  map (fun kp => [fst kp; name (snd kp); icon (snd kp); "[green]✓ Active[/green]"])
      platforms
  ++ [ [""; ""; ""; ""];
       ["0"; "Exit Program"; "🚪"; "[red]Exit[/red]"] ].

Definition show_platforms_menu (platforms : list (string * PlatformConfig))
  : M unit :=
  console_print "";;
  emit (PlatformsTable (platforms_menu_rows platforms)).

(** The panel of [show_platform_guide]: the examples, numbered from 1, and
    the tips. *)
Definition guide_panel (platform : PlatformConfig) : event :=
  let heading :=
    "[bold cyan]" +:+ icon platform +:+ " " +:+ name platform
      +:+ " - URL Examples[/bold cyan]" in
  let branches :=
    map (fun ie => ("[yellow]Example " +:+ Str.of_Z (fst ie) +:+ "[/yellow]",
                    "[white]" +:+ snd ie +:+ "[/white]"))
        (enumerate 1 (examples platform)) in
  let tips := [
    "[bold green]💡 Tips[/bold green]";
    "[white]• Copy URL directly from your browser[/white]";
    "[white]• Make sure the video is public[/white]";
    "[white]• Video will be saved in highest quality[/white]" ] in
  let title :=
    "[bold green]How to Download from " +:+ name platform +:+ "[/bold green]" in
  GuidePanel title heading branches tips.

Definition show_platform_guide (platform : PlatformConfig) : M unit :=
  console_print "";;
  emit (guide_panel platform).

(** The duration cell: [divmod(int(duration), 60)], then the text. *)
Definition format_duration (duration : pyval) : result string :=
  match py_int duration with
  | Raise e => Raise e
  | Ok n =>
      let (minutes, seconds) := Py.divmod n 60 in
      Ok (if Py.truthy duration
          then Str.of_Z minutes +:+ "m " +:+ Str.of_Z seconds +:+ "s"
          else "N/A")
  end.

(** The views value: grouped digits for an [int], else as it is. *)
Definition format_views (views : pyval) : pyval :=
  match views with
  | PInt z => PStr (Py.format_thousands z)
  | _ => views
  end.

(** The file-size value: megabytes with two decimals for an [int]. *)
Definition format_filesize (filesize : pyval) : result pyval :=
  match filesize with
  | PInt z =>
      match Py.true_div_MiB z with
      | Raise e => Raise e
      | Ok filesize_mb => Ok (PStr (Py.format_2f filesize_mb +:+ " MB"))
      end
  | _ => Ok filesize
  end.

Definition video_info_rows (info : gmap string pyval)
  : result (list (string * pyval)) :=
  let duration := dict_get info "duration" (PInt 0) in
  match format_duration duration with
  | Raise e => Raise e
  | Ok duration_str =>
      let views := format_views (dict_get info "view_count" (PStr "N/A")) in
      match format_filesize
              (dict_get info "filesize" (dict_get info "filesize_approx" (PStr "N/A")))
      with
      | Raise e => Raise e
      | Ok filesize =>
          Ok [ ("📝 Title", dict_get info "title" (PStr "N/A"));
               ("👤 Uploader", dict_get info "uploader" (PStr "N/A"));
               ("⏱️  Duration", PStr duration_str);
               ("👁️  Views", PStr (py_str views));
               ("💾 File Size", PStr (py_str filesize));
               ("📅 Upload Date", dict_get info "upload_date" (PStr "N/A")) ]
      end
  end.

Definition show_video_info (info : gmap string pyval) : M unit :=
  rows ← lift (video_info_rows info);
  console_print "";;
  emit (VideoInfoTable rows).

Definition show_success_message (output_path filename : string) : M unit :=
  console_print "";;
  emit (SuccessPanel (Path.join output_path filename)).

Definition show_error_message (error : string) : M unit :=
  console_print "";;
  emit (ErrorPanel error).

(** *** VideoDownloader *)

(** The options for a platform, given the output directory. *)
Definition ydl_options_for (out : string) (platform : PlatformConfig) : ydl_options := {|
  outtmpl := Path.join out "%(title)s.%(ext)s";
  format := format_preference platform;
  quiet := true;
  no_warnings := true;
  nocheckcertificate := true;
  user_agent := "Mozilla/5.0 (Windows NT 10.0; Win64; x64) AppleWebKit/537.36"
|}.

Definition configure_ydl_options (platform : PlatformConfig) : M ydl_options :=
  get (fun s => ydl_options_for (output_dir s) platform).

Definition fetching_status : string := "[bold cyan]Fetching video information...".

Definition cancelled_notice : string :=
  "[yellow]⚠️  Download cancelled by user[/yellow]".

Definition proceed_question : string :=
  "[bold yellow]⬇️  Proceed with download?[/bold yellow]".

Definition append_history (title : pyval) : M unit := fun s =>
  (Ok tt, set_download_history (download_history s ++ [title]) s).

Definition download_video (url : string) (platform : PlatformConfig) : M bool :=
  try_except
    (ydl_opts ← configure_ydl_options platform;
     emit (Status fetching_status);;
     info ← ydl_extract_info url ydl_opts;
     show_video_info info;;
     console_print "";;
     proceed ← Confirm_ask proceed_question true;
     if negb proceed then
       console_print cancelled_notice;;
       mret false
     else
       console_print "";;
       ydl_download [url] ydl_opts;;
       filename ← get (fun s => prepare_filename (ydl s) info ydl_opts);
       out ← get output_dir;
       show_success_message out (Path.name filename);;
       append_history (dict_get info "title" (PStr "Unknown"));;
       mret true)
    (fun e =>
       show_error_message (exn_msg e);;
       mret false).

(** One row of the statistics table:
    [title[:47] + "..." if len(title) > 50 else title], where [len] raises
    for a title that is not a string. *)
Definition statistics_row (it : Z * pyval) : result (string * string) :=
  match snd it with
  | PStr title =>
      Ok (Str.of_Z (fst it),
          if (50 <? String.length title)%nat
          then Str.take 47 title +:+ "..." else title)
  | v => Raise (no_len v)
  end.

Fixpoint statistics_rows (l : list (Z * pyval)) : result (list (string * string)) :=
  match l with
  | [] => Ok []
  | it :: rest =>
      match statistics_row it with
      | Raise e => Raise e
      | Ok row =>
          match statistics_rows rest with
          | Raise e => Raise e
          | Ok rows => Ok (row :: rows)
          end
      end
  end.

Definition show_statistics : M unit :=
  history ← get download_history;
  match history with
  | [] => mret tt
  | _ =>
      rows ← lift (statistics_rows (enumerate 1 history));
      console_print "";;
      emit (StatisticsTable rows)
  end.

Definition select_question : string := "[bold cyan]🎯 Select a platform[/bold cyan]".
Definition url_question : string := "[bold green]🔗 Enter video URL[/bold green]".
Definition empty_url_notice : string := "[red]❌ URL cannot be empty![/red]".
Definition another_question : string := "[cyan]🔄 Download another video?[/cyan]".

Definition mismatch_warning (detected platform : PlatformConfig) : string :=
  "[yellow]⚠️  Warning: URL appears to be from " +:+ name detected +:+ ", "
    +:+ "not " +:+ name platform +:+ "[/yellow]".

(** The statistics, if any, and the closing panel: the two exits of [run]. *)
Definition say_goodbye : M loop_control :=
  history ← get download_history;
  (match history with [] => mret tt | _ => show_statistics end);;
  console_print "";;
  emit FarewellPanel;;
  console_print "";;
  mret Break.

(** [self.platforms[choice]] *)
Definition platforms_getitem (choice : string) : M PlatformConfig := fun s =>
  match Platform.getitem (platforms s) choice with
  | Some p => (Ok p, s)
  | None => (Raise (Exn KeyError ("'" +:+ choice +:+ "'")), s)
  end.

(** The validation of the URL: whether to go on to the download. *)
Definition platform_check (url : string) (platform : PlatformConfig) : M bool :=
  match Platform.detect_platform url with
  | Some detected_platform =>
      if negb (Str.eqb (name detected_platform) (name platform)) then
        console_print (mismatch_warning detected_platform platform);;
        Confirm_ask "Continue anyway?" false
      else mret true
  | None => mret true
  end.

(** The end of the loop body, once the URL has passed the validation: the
    download, then the question whether to go on. *)
Definition download_step (url : string) (platform : PlatformConfig) : M loop_control :=
  console_print "";;
  download_video url platform;;
  console_print "";;
  again ← Confirm_ask another_question true;
  if negb again then say_goodbye else mret Continue.

Definition platform_choices : list string := ["0"; "1"; "2"; "3"; "4"; "5"].

(** The body of the [while True] loop of [run]. *)
Definition iteration : M loop_control :=
  ps ← get platforms;
  show_platforms_menu ps;;
  console_print "";;
  choice ← Prompt_ask select_question platform_choices (Some "1");
  if Str.eqb choice "0" then say_goodbye
  else
    platform ← platforms_getitem choice;
    show_platform_guide platform;;
    console_print "";;
    reply ← Prompt_ask url_question [] None;
    let url := Str.strip reply in
    if Str.eqb url "" then
      console_print empty_url_notice;;
      mret Continue
    else
      go_on ← platform_check url platform;
      if negb go_on then mret Continue
      else download_step url platform.

(** The loop, unrolled at most [fuel] times; [None] when [fuel] runs out. *)
Fixpoint run_loop (fuel : nat) : M (option unit) :=
  match fuel with
  | O => mret None
  | S fuel' =>
      c ← iteration;
      match c with
      | Break => mret (Some tt)
      | Continue => run_loop fuel'
      end
  end.

(** [run]: every turn of the loop reads a platform choice, so the number
    of replies left bounds the number of turns. *)
Definition run : M (option unit) :=
  show_banner;;
  replies ← get prompt_replies;
  run_loop (S (length replies)).

(** ** Specification predicates *)

(** [d] occurs in [url] up to the case of ASCII letters. *)
Definition occurs_ci (d url : string) : Prop :=
  ∃ a m b, url = a +:+ m +:+ b ∧ Str.lower m = Str.lower d.

(** Some domain of [p] occurs in [url], case-insensitively. *)
Definition matches (p : PlatformConfig) (url : string) : Prop :=
  ∃ d, d ∈ domains p ∧ occurs_ci d url.

(** [d] occurs in [s] as it is. *)
Definition occurs (d s : string) : Prop := ∃ a b, s = a +:+ d +:+ b.

(** The events a computation added to the log. *)
Definition emitted (s s' : state) : list event :=
  drop (length (console_log s)) (console_log s').

(** The state [s] after the events [evs], with the replies that remain and
    the history as given. *)
Definition advance (s : state) (evs : list event) (pr : list (result string))
    (cr : list (result bool)) (h : list pyval) : state :=
  {| output_dir := output_dir s; platforms := platforms s;
     download_history := h;
     prompt_replies := pr; confirm_replies := cr;
     ydl := ydl s; console_log := console_log s ++ evs |}.

(** What the handler of [download_video] makes of an exception: an error
    panel and the answer [False], or nothing for one it does not catch. *)
Definition except_Exception (e : exn) : result bool * list event :=
  if is_Exception e then (Ok false, [Print ""; ErrorPanel (exn_msg e)])
  else (Raise e, []).

Definition is_error_panel (ev : event) : bool :=
  match ev with ErrorPanel _ => true | _ => false end.


(** A call of the extractor, or the status line that announces one. *)
Definition is_extractor_event (ev : event) : bool :=
  match ev with
  | Status _ | ExtractInfo _ _ _ | Download _ _ _ => true
  | _ => false
  end.


Definition probe_succeeded (url : string) (info : gmap string pyval)
    (evs : list event) : Prop :=
  ∃ opts, ExtractInfo url opts (Ok info) ∈ evs.

Definition confirmation_accepted (evs : list event) : Prop :=
  ConfirmAsk proceed_question true (Ok true) ∈ evs.

Definition confirmation_declined (evs : list event) : Prop :=
  ConfirmAsk proceed_question true (Ok false) ∈ evs.

Definition fetch_succeeded (url : string) (evs : list event) : Prop :=
  ∃ opts, Download [url] opts (Ok tt) ∈ evs.

(** The events of one turn of the loop up to the choice of a platform, and
    from there up to the entry of the URL. *)
Definition menu_events (s : state) (reply : result string) : list event :=
  [ Print ""; PlatformsTable (platforms_menu_rows (platforms s)); Print "";
    PromptAsk select_question platform_choices (Some "1") reply ].

Definition guide_events (platform : PlatformConfig) (reply : result string)
  : list event :=
  [ Print ""; guide_panel platform; Print "";
    PromptAsk url_question [] None reply ].

Definition mismatch_events (detected platform : PlatformConfig)
    (reply : result bool) : list event :=
  [ Print (mismatch_warning detected platform);
    ConfirmAsk "Continue anyway?" false reply ].

(** *** The runs of [download_video] *)

Section Run.

Variables (url : string) (platform : PlatformConfig) (s : state).

Let opts : ydl_options := ydl_options_for (output_dir s) platform.

Definition probe_events (outcome : result (gmap string pyval)) : list event :=
  [Status fetching_status; ExtractInfo url opts outcome].

Definition info_events (info : gmap string pyval) (rows : list (string * pyval))
  : list event :=
  probe_events (Ok info) ++ [Print ""; VideoInfoTable rows; Print ""].

Definition confirm_events (info : gmap string pyval) (rows : list (string * pyval))
    (reply : result bool) : list event :=
  info_events info rows ++ [ConfirmAsk proceed_question true reply].

Definition fetch_events (info : gmap string pyval) (rows : list (string * pyval))
    (outcome : result unit) : list event :=
  confirm_events info rows (Ok true) ++ [Print ""; Download [url] opts outcome].

Definition success_events (info : gmap string pyval) : list event :=
  [ Print "";
    SuccessPanel (Path.join (output_dir s)
                    (Path.name (prepare_filename (ydl s) info opts))) ].

(** What the probe and the transfer answer in the state [s]. *)
Definition probe_outcome : result (gmap string pyval) :=
  extract_info (ydl s) (console_log s ++ [Status fetching_status]) url opts.

Definition fetch_outcome (info : gmap string pyval) (rows : list (string * pyval))
  : result unit :=
  download (ydl s) (console_log s ++ confirm_events info rows (Ok true) ++ [Print ""])
    [url] opts.

(** The six ways a call of [download_video] can go, with its answer and
    the state it leaves. *)
Inductive download_run : result bool → state → Prop :=
| Run_probe_failed e :
    probe_outcome = Raise e →
    download_run (fst (except_Exception e))
      (advance s (probe_events (Raise e) ++ snd (except_Exception e))
         (prompt_replies s) (confirm_replies s) (download_history s))
| Run_info_failed info e :
    probe_outcome = Ok info →
    video_info_rows info = Raise e →
    download_run (fst (except_Exception e))
      (advance s (probe_events (Ok info) ++ snd (except_Exception e))
         (prompt_replies s) (confirm_replies s) (download_history s))
| Run_confirm_failed info rows e :
    probe_outcome = Ok info →
    video_info_rows info = Ok rows →
    next_reply (confirm_replies s) = Raise e →
    download_run (fst (except_Exception e))
      (advance s (confirm_events info rows (Raise e) ++ snd (except_Exception e))
         (prompt_replies s) (tail (confirm_replies s)) (download_history s))
| Run_declined info rows :
    probe_outcome = Ok info →
    video_info_rows info = Ok rows →
    next_reply (confirm_replies s) = Ok false →
    download_run (Ok false)
      (advance s (confirm_events info rows (Ok false) ++ [Print cancelled_notice])
         (prompt_replies s) (tail (confirm_replies s)) (download_history s))
| Run_fetch_failed info rows e :
    probe_outcome = Ok info →
    video_info_rows info = Ok rows →
    next_reply (confirm_replies s) = Ok true →
    fetch_outcome info rows = Raise e →
    download_run (fst (except_Exception e))
      (advance s (fetch_events info rows (Raise e) ++ snd (except_Exception e))
         (prompt_replies s) (tail (confirm_replies s)) (download_history s))
| Run_success info rows :
    probe_outcome = Ok info →
    video_info_rows info = Ok rows →
    next_reply (confirm_replies s) = Ok true →
    fetch_outcome info rows = Ok tt →
    download_run (Ok true)
      (advance s (fetch_events info rows (Ok tt) ++ success_events info)
         (prompt_replies s) (tail (confirm_replies s))
         (download_history s ++ [dict_get info "title" (PStr "Unknown")])).

End Run.

(** Every domain of the descriptor is written in lower case. *)
Definition lowercase_domains (p : PlatformConfig) : Prop :=
  Forall (fun d => Str.lower d = d) (domains p).

Definition is_download (ev : event) : bool :=
  match ev with Download _ _ _ => true | _ => false end.

(** The question of the platform check. *)
Definition is_continue_anyway (ev : event) : bool :=
  match ev with
  | ConfirmAsk prompt _ _ => Str.eqb prompt "Continue anyway?"
  | _ => false
  end.

Definition farewell_events : list event := [Print ""; FarewellPanel; Print ""].

Definition statistics_events (rows : list (string * string)) : list event :=
  [Print ""; StatisticsTable rows].

(** What the exit shows for a history: the statistics when there are
    any, then the closing panel. *)
Definition goodbye_events (h : list pyval) : result (list event) :=
  match h with
  | [] => Ok farewell_events
  | _ =>
      match statistics_rows (enumerate 1 h) with
      | Ok rows => Ok (statistics_events rows ++ farewell_events)
      | Raise e => Raise e
      end
  end.

(** ** A session to run the program on *)

(** [VideoDownloader()]: the object as [__init__] leaves it, in a world
    with the given extractor and the given replies of the user. *)
Definition new_downloader (yt : YoutubeDL) (prompts : list (result string))
    (confirms : list (result bool)) : state :=
  {| output_dir := "downloads"; platforms := Platform.get_all;
     download_history := [];
     prompt_replies := prompts; confirm_replies := confirms;
     ydl := yt; console_log := [] |}.

Definition sample_url : string := "https://youtu.be/dQw4w9WgXcQ".

Definition sample_info : gmap string pyval :=
  <["title" := PStr "Never Gonna Give You Up"]>
    (<["duration" := PInt 125]> (<["filesize" := PInt 10485760]> ∅)).

(** An extractor that finds the sample video whatever the URL. *)
Definition sample_extractor : YoutubeDL :=
  {| extract_info := fun _ _ _ => Ok sample_info;
     download := fun _ _ _ => Ok tt;
     prepare_filename := fun _ _ => "downloads/Never Gonna Give You Up.mp4" |}.



(** Stand-ins for the two builtins of the interpreter; the sample metadata
    holds no float and no number written as a string. *)
Definition sample_float_repr (f : pyfloat) : string := "nan".

Definition sample_int_of_str (s : string) : result Z :=
  Raise (Exn ValueError "invalid literal for int() with base 10").

(** ** The progress hook, the entry point and further predicates *)

(** *** DownloadProgressHook *)
(** What the hook does to the progress display. *)
Inductive hook_event :=
| ProgressStart                                   (* self.progress.start() *)
| AddTask (description : string) (total : pyval)  (* self.progress.add_task(...) *)
| ProgressUpdate (completed : pyval)              (* self.progress.update(...) *)
| ProgressStop.                                   (* self.progress.stop() *)

(** The fields of the hook: whether it holds a [Progress] display and
    whether it holds a task of one ([None] or an object, in the source). *)
Record DownloadProgressHook := {
  progress : bool;
  task : bool
}.

(** [DownloadProgressHook(console)] *)
Definition new_hook : DownloadProgressHook := {| progress := false; task := false |}.

(** [a or b] *)
Definition py_or (a b : pyval) : pyval := if Py.truthy a then a else b.

(** [d.get('total_bytes') or d.get('total_bytes_estimate', 0)] *)
Definition total_hint (d : gmap string pyval) : pyval :=
  py_or (dict_get d "total_bytes" PNone) (dict_get d "total_bytes_estimate" (PInt 0)).

(** [__call__(d)]: the outcome, the hook afterwards, and what it drew. *)
Definition hook_call (d : gmap string pyval) (h : DownloadProgressHook)
  : result unit * DownloadProgressHook * list hook_event :=
  match d !! "status" with
  | None => (Raise (Exn KeyError "'status'"), h, [])
  | Some status =>
      if bool_decide (status = PStr "downloading") then
        let downloaded := dict_get d "downloaded_bytes" (PInt 0) in
        if progress h then
          (Ok tt, h, [ProgressUpdate downloaded])
        else
          (Ok tt, {| progress := true; task := true |},
           [ProgressStart; AddTask "Downloading..." (total_hint d);
            ProgressUpdate downloaded])
      else if bool_decide (status = PStr "finished") then
        if progress h then
          (Ok tt, {| progress := false; task := task h |}, [ProgressStop])
        else (Ok tt, h, [])
      else (Ok tt, h, [])
  end.

(** The hook called on one signal after the other, up to the first
    exception. *)
Fixpoint hook_calls (ds : list (gmap string pyval)) (h : DownloadProgressHook)
  : result unit * DownloadProgressHook * list hook_event :=
  match ds with
  | [] => (Ok tt, h, [])
  | d :: rest =>
      match hook_call d h with
      | (Ok _, h', evs) =>
          match hook_calls rest h' with
          | (r, h'', evs') => (r, h'', evs ++ evs')
          end
      | (Raise e, h', evs) => (Raise e, h', evs)
      end
  end.

(** The displays that are started and not stopped, going through the
    events from [live] such displays; [None] when an event does not fit:
    a second start, or a task, an update or a stop without a display. *)
Fixpoint displays (live : bool) (evs : list hook_event) : option bool :=
  match evs with
  | [] => Some live
  | ProgressStart :: rest => if live then None else displays true rest
  | ProgressStop :: rest => if live then displays false rest else None
  | _ :: rest => if live then displays true rest else None
  end.

(** *** Predicates on the log *)

Definition is_success_panel (ev : event) : bool :=
  match ev with SuccessPanel _ => true | _ => false end.

Definition is_question (ev : event) : bool :=
  match ev with ConfirmAsk _ _ _ | PromptAsk _ _ _ _ => true | _ => false end.

(** The three ways [download_video] tells how a call ended. *)
Definition is_report (ev : event) : bool :=
  match ev with
  | SuccessPanel _ | ErrorPanel _ => true
  | Print text => Str.eqb text cancelled_notice
  | _ => false
  end.

(** The exception of [int(None)]. *)
Definition int_of_None : exn :=
  Exn TypeError
    "int() argument must be a string, a bytes-like object or a real number, not 'NoneType'".

(** The text without its commas. *)
Fixpoint remove_commas (s : string) : string :=
  match s with
  | EmptyString => EmptyString
  | String c s' =>
      if bool_decide (c = ","%char) then remove_commas s'
      else String c (remove_commas s')
  end.



(** The question of [download_video], accepted. *)
Definition is_consent (ev : event) : bool :=
  match ev with
  | ConfirmAsk prompt _ (Ok true) => Str.eqb prompt proceed_question
  | _ => false
  end.

(** A transfer that went through. *)
Definition is_completed (ev : event) : bool :=
  match ev with Download _ _ (Ok _) => true | _ => false end.

(** The events that the books below count. *)
Definition is_counted (ev : event) : bool :=
  is_success_panel ev || is_download ev || is_consent ev.

(** The books of a stretch of the session: the history grew by as many
    entries as success panels were shown, as many transfers were started as
    questions of [download_video] accepted, and as many success panels
    shown as transfers went through. *)
Definition balanced (s s' : state) : Prop :=
  ∃ evs added,
    console_log s' = console_log s ++ evs ∧
    download_history s' = download_history s ++ added ∧
    length added = length (List.filter is_success_panel evs) ∧
    length (List.filter is_download evs) = length (List.filter is_consent evs) ∧
    length (List.filter is_success_panel evs) =
      length (List.filter is_completed evs).

(** The log ends with what the exit shows for the final history. *)
Definition said_goodbye (s' : state) : Prop :=
  ∃ pre bye,
    console_log s' = pre ++ bye ∧
    goodbye_events (download_history s') = Ok bye.

(** *** main *)
(** How the process ends: with an exit code, or with an exception that no
    clause of [main] catches. *)
Inductive exit_status :=
| Exit (code : Z)
| Uncaught (e : exn).

Definition newline : string := String (ascii_of_nat 10) "".

Definition interrupted_notice : string :=
  newline +:+ newline +:+
  "[yellow]⚠️  Operation cancelled by user. Goodbye![/yellow]" +:+ newline.

Definition unexpected_error (e : exn) : string :=
  newline +:+ "[bold red]❌ Unexpected error: " +:+ exn_msg e +:+ "[/bold red]"
    +:+ newline.

(** The two [except] clauses of [main], for an exception raised after the
    events [log]: [KeyboardInterrupt] first, then [Exception]. *)
Definition main_handler (e : exn) (log : list event) : exit_status * list event :=
  match exn_kind e with
  | KeyboardInterrupt => (Exit 0, log ++ [Print interrupted_notice])
  | _ =>
      if is_Exception e then (Exit 1, log ++ [Print (unexpected_error e)])
      else (Uncaught e, log)
  end.

(** [main]: [mkdir] is what creating the output directory in
    [VideoDownloader()] gives; the process ends with code 0 when [run]
    returns. *)
Definition main (mkdir : result unit) (yt : YoutubeDL)
    (prompts : list (result string)) (confirms : list (result bool))
  : exit_status * list event :=
  match mkdir with
  | Raise e => main_handler e []
  | Ok _ =>
      let (r, s') := run (new_downloader yt prompts confirms) in
      match r with
      | Ok _ => (Exit 0, console_log s')
      | Raise e => main_handler e (console_log s')
      end
  end.

(** *** More of the sample session *)


(** Metadata of a live stream: the duration is there, and it is [None]. *)
Definition untimed_info : gmap string pyval :=
  <["duration" := PNone]> sample_info.

Definition untimed_extractor : YoutubeDL :=
  {| extract_info := fun _ _ _ => Ok untimed_info;
     download := fun _ _ _ => Ok tt;
     prepare_filename := fun _ _ => "downloads/Never Gonna Give You Up.mp4" |}.


(** A signal of a transfer of 100 bytes, as the extractor sends it. *)
Definition signal (status : string) (downloaded : Z) : gmap string pyval :=
  <["status" := PStr status]>
    (<["total_bytes" := PInt 100]> (<["downloaded_bytes" := PInt downloaded]> ∅)).

(** ** Proof automation *)

(** Unfold the monad and the primitives, then project the state. *)
Ltac state_simpl :=
  cbv [set_console_log set_confirm_replies set_download_history
       set_prompt_replies advance];
  cbn [fst snd console_log download_history confirm_replies prompt_replies ydl
       output_dir platforms next_reply tail].

Ltac run_monad :=
  cbv [download_video try_except mbind M_bind mret M_ret configure_ydl_options get
       emit console_print ydl_extract_info show_video_info lift Confirm_ask
       ydl_download show_success_message append_history
       show_error_message set_console_log set_confirm_replies
       set_download_history set_prompt_replies negb];
  cbn [fst snd console_log download_history confirm_replies prompt_replies ydl
       output_dir platforms].

Ltac run_turn :=
  cbv [iteration platform_check platforms_getitem say_goodbye show_statistics
       download_step show_platforms_menu show_platform_guide lift
       mbind M_bind mret M_ret get emit console_print Confirm_ask
       Prompt_ask set_console_log set_confirm_replies
       set_download_history set_prompt_replies negb];
  cbn [fst snd console_log download_history confirm_replies prompt_replies ydl
       output_dir platforms next_reply tail].

Ltac run_head :=
  cbv [iteration platforms_getitem show_platforms_menu show_platform_guide
       mbind M_bind mret M_ret get emit console_print Prompt_ask
       set_console_log set_confirm_replies set_download_history
       set_prompt_replies negb];
  cbn [fst snd console_log download_history confirm_replies prompt_replies ydl
       output_dir platforms next_reply tail].

(** ** Facts about strings *)

#[local] Arguments String.append !_ _ / : simpl nomatch.

Lemma append_nil_r (s : string) : s +:+ "" = s.
Proof. induction s as [|c s IH]; simpl; [done | by rewrite IH]. Qed.

Lemma append_assoc (a b c : string) : (a +:+ b) +:+ c = a +:+ (b +:+ c).
Proof. induction a as [|x a IH]; simpl; [done | by rewrite IH]. Qed.

Lemma startswith_occurs (d s : string) :
  Str.startswith d s = true ↔ ∃ t, s = d +:+ t.
Proof.
  revert s; induction d as [|c d IH]; intros s; simpl.
  - split; [intros _; by exists s | done].
  - destruct s as [|c' s].
    + split; [done | intros [t Ht]; discriminate].
    + rewrite andb_true_iff, bool_decide_eq_true, IH. split.
      * intros [-> [t ->]]. by exists t.
      * intros [t Ht]. injection Ht as -> ->. split; [done | by exists t].
Qed.

Lemma contains_occurs (d s : string) :
  Str.contains d s = true ↔ occurs d s.
Proof.
  unfold occurs. induction s as [|c s IH]; simpl.
  - rewrite orb_false_r, startswith_occurs. split.
    + intros [t Ht]. by exists "", t.
    + intros (a & b & Hab). destruct a; [by exists b | discriminate].
  - rewrite orb_true_iff, startswith_occurs, IH. split.
    + intros [[t Ht] | (a & b & Hab)].
      * by exists "", t.
      * exists (String c a), b. simpl. by rewrite Hab.
    + intros (a & b & Hab). destruct a as [|x a]; simpl in Hab.
      * left. by exists b.
      * right. exists a, b. congruence.
Qed.

Lemma lower_char_idem (c : ascii) :
  Str.lower_char (Str.lower_char c) = Str.lower_char c.
Proof.
  destruct c as [[] [] [] [] [] [] [] []]; reflexivity.
Qed.

Lemma lower_idem (s : string) : Str.lower (Str.lower s) = Str.lower s.
Proof.
  induction s as [|c s IH]; simpl; [done |].
  by rewrite lower_char_idem, IH.
Qed.

Lemma lower_app (a b : string) :
  Str.lower (a +:+ b) = Str.lower a +:+ Str.lower b.
Proof. induction a as [|c a IH]; simpl; [done | by rewrite IH]. Qed.

(** A split of the lowered text comes from a split of the text. *)
Lemma lower_split (s x y : string) :
  Str.lower s = x +:+ y →
  ∃ a b, s = a +:+ b ∧ Str.lower a = x ∧ Str.lower b = y.
Proof.
  revert s; induction x as [|c x IH]; intros s H; simpl in H.
  - by exists "", s.
  - destruct s as [|c' s]; simpl in H; [discriminate |].
    injection H as Hc Hs.
    destruct (IH _ Hs) as (a & b & -> & Ha & Hb).
    exists (String c' a), b. simpl. by rewrite Hc, Ha.
Qed.

(** The test of the code on a lower-case domain is the case-insensitive
    occurrence of the domain in the URL. *)
Lemma contains_lower_occurs_ci (d url : string) :
  Str.lower d = d →
  Str.contains d (Str.lower url) = true ↔ occurs_ci d url.
Proof.
  intros Hd. rewrite contains_occurs. unfold occurs, occurs_ci. split.
  - intros (x & y & H).
    destruct (lower_split _ _ _ H) as (a & r & -> & Ha & Hr).
    destruct (lower_split _ _ _ Hr) as (m & b & -> & Hm & Hb).
    exists a, m, b. by rewrite Hm, Hd.
  - intros (a & m & b & -> & Hm).
    exists (Str.lower a), (Str.lower b).
    by rewrite !lower_app, Hm, Hd.
Qed.

(** ** Detection of the platform *)

Lemma catalog_lowercase : Forall lowercase_domains (Platform.values Platform.get_all).
Proof. repeat (constructor; [repeat constructor |]). constructor. Qed.

Lemma any_domain_in_matches (p : PlatformConfig) (url : string) :
  lowercase_domains p →
  Platform.any_domain_in p url = true ↔ matches p url.
Proof.
  intros Hlow. unfold Platform.any_domain_in, matches.
  rewrite existsb_exists. split.
  - intros (d & Hin & Hd). exists d.
    apply list_elem_of_In in Hin. split; [done |].
    apply contains_lower_occurs_ci; [| done].
    by eapply (proj1 (Forall_forall _ _) Hlow).
  - intros (d & Hin & Hd). exists d. split; [by apply list_elem_of_In |].
    apply contains_lower_occurs_ci; [| done].
    by eapply (proj1 (Forall_forall _ _) Hlow).
Qed.

(** The loop returns the first descriptor that matches. *)
Lemma detect_in_Some (ps : list PlatformConfig) (url : string) (p : PlatformConfig) :
  Forall lowercase_domains ps →
  Platform.detect_in ps url = Some p ↔
  ∃ before after, ps = before ++ p :: after ∧ matches p url ∧
                  Forall (fun q => ¬ matches q url) before.
Proof.
  induction ps as [|q ps IH]; intros Hlow; simpl.
  - split; [done |]. intros (before & after & Heq & _). by destruct before.
  - apply Forall_cons in Hlow as [Hq Hps].
    destruct (Platform.any_domain_in q url) eqn:Hany.
    + apply any_domain_in_matches in Hany; [| done]. split.
      * intros [= ->]. exists [], ps. by repeat split.
      * intros (before & after & Heq & Hm & Hnone).
        destruct before as [|b before]; simpl in Heq.
        -- congruence.
        -- injection Heq as -> _. apply Forall_cons in Hnone as [Hb _]. done.
    + assert (¬ matches q url) as Hnot.
      { intros Hm. apply any_domain_in_matches in Hm; [congruence | done]. }
      rewrite (IH Hps). split.
      * intros (before & after & -> & Hm & Hnone).
        exists (q :: before), after. repeat split; [done |].
        by apply Forall_cons.
      * intros (before & after & Heq & Hm & Hnone).
        destruct before as [|b before]; simpl in Heq.
        -- injection Heq as -> _. done.
        -- injection Heq as -> ->. apply Forall_cons in Hnone as [_ Hrest].
           by exists before, after.
Qed.

Lemma detect_in_None (ps : list PlatformConfig) (url : string) :
  Forall lowercase_domains ps →
  Platform.detect_in ps url = None ↔ Forall (fun q => ¬ matches q url) ps.
Proof.
  induction ps as [|q ps IH]; intros Hlow; simpl.
  - split; [constructor | done].
  - apply Forall_cons in Hlow as [Hq Hps].
    destruct (Platform.any_domain_in q url) eqn:Hany.
    + apply any_domain_in_matches in Hany; [| done]. split; [done |].
      intros [Hnot _]%Forall_cons. done.
    + rewrite (IH Hps). split.
      * intros Hrest. apply Forall_cons. split; [| done].
        intros Hm. apply any_domain_in_matches in Hm; [congruence | done].
      * by intros [_ Hrest]%Forall_cons.
Qed.

(** Two descriptors of the catalog with the same name are the same. *)
Lemma catalog_names_distinct (p q : PlatformConfig) :
  p ∈ Platform.values Platform.get_all →
  q ∈ Platform.values Platform.get_all →
  name p = name q → p = q.
Proof.
  intros Hp Hq. cbn in Hp, Hq.
  elem_inv Hp; elem_inv Hq; subst; first [reflexivity | discriminate].
Qed.

Lemma detect_in_elem (ps : list PlatformConfig) (url : string) (p : PlatformConfig) :
  Platform.detect_in ps url = Some p → p ∈ ps.
Proof.
  induction ps as [|q ps IH]; simpl; [done |].
  destruct (Platform.any_domain_in q url).
  - intros [= ->]. apply list_elem_of_here.
  - intros H. apply list_elem_of_further. by apply IH.
Qed.

Lemma getitem_elem (d : list (string * PlatformConfig)) (key : string)
    (p : PlatformConfig) :
  Platform.getitem d key = Some p → p ∈ Platform.values d.
Proof.
  induction d as [|[k v] d IH]; simpl; [done |].
  destruct (Str.eqb k key).
  - intros [= ->]. apply list_elem_of_here.
  - intros H. apply list_elem_of_further. by apply IH.
Qed.

(** For a platform chosen from the catalog, the detected platform is
    another one exactly when it has another name. *)
Lemma differs_by_name (key url : string) (platform detected : PlatformConfig) :
  Platform.getitem Platform.get_all key = Some platform →
  Platform.detect_platform url = Some detected →
  detected ≠ platform ↔ name detected ≠ name platform.
Proof.
  intros Hplatform Hdetected.
  apply getitem_elem in Hplatform. apply detect_in_elem in Hdetected.
  split.
  - intros Hdiff Hname. apply Hdiff. by apply catalog_names_distinct.
  - intros Hname ->. done.
Qed.

(** ** Runs of [download_video] *)

Lemma emitted_advance s evs pr cr h : emitted s (advance s evs pr cr h) = evs.
Proof. unfold emitted, advance. cbn [console_log]. apply drop_app_length. Qed.

(** Every call of [download_video] is one of the six runs. *)
Lemma download_video_run url platform s :
  download_run url platform s (fst (download_video url platform s))
    (snd (download_video url platform s)).
Proof.
  run_monad.
  destruct (extract_info _ _ _ _) as [info|e] eqn:Hprobe.
  - run_monad. destruct (video_info_rows info) as [rows|e] eqn:Hrows.
    + run_monad.
      destruct (next_reply (confirm_replies s)) as [[]|e] eqn:Hreply.
      * run_monad. rewrite <- ?app_assoc.
        destruct (download _ _ _ _) as [[]|e] eqn:Hfetch.
        -- run_monad. rewrite <- ?app_assoc.
           exact (Run_success url platform s info rows Hprobe Hrows Hreply Hfetch).
        -- pose proof (Run_fetch_failed url platform s info rows e
                         Hprobe Hrows Hreply Hfetch) as H.
           unfold except_Exception in H.
           destruct (is_Exception e); run_monad; rewrite <- ?app_assoc; exact H.
      * run_monad. rewrite <- ?app_assoc.
        exact (Run_declined url platform s info rows Hprobe Hrows Hreply).
      * pose proof (Run_confirm_failed url platform s info rows e
                      Hprobe Hrows Hreply) as H.
        unfold except_Exception in H.
        destruct (is_Exception e); run_monad; rewrite <- ?app_assoc; exact H.
    + pose proof (Run_info_failed url platform s info e Hprobe Hrows) as H.
      unfold except_Exception in H.
      destruct (is_Exception e); run_monad; rewrite <- ?app_assoc; exact H.
  - pose proof (Run_probe_failed url platform s e Hprobe) as H.
    unfold except_Exception in H.
    destruct (is_Exception e); run_monad; rewrite <- ?app_assoc; exact H.
Qed.

Ltac run_cases url platform s :=
  destruct (download_video_run url platform s);
  rewrite ?emitted_advance in *;
  unfold except_Exception in *;
  cbn [fst snd download_history confirm_replies prompt_replies advance] in *;
  cbv [fetch_events confirm_events info_events probe_events success_events] in *;
  cbn [app] in *.

(** ** The loop *)

Lemma advance_nil s :
  advance s [] (prompt_replies s) (confirm_replies s) (download_history s) = s.
Proof. destruct s. unfold advance. cbn. by rewrite app_nil_r. Qed.

Lemma advance_advance s evs pr cr h evs' pr' cr' h' :
  advance (advance s evs pr cr h) evs' pr' cr' h' = advance s (evs ++ evs') pr' cr' h'.
Proof. unfold advance. cbn. by rewrite app_assoc. Qed.

Lemma say_goodbye_run s :
  say_goodbye s =
    match goodbye_events (download_history s) with
    | Ok evs =>
        (Ok Break,
         advance s evs (prompt_replies s) (confirm_replies s) (download_history s))
    | Raise e => (Raise e, s)
    end.
Proof.
  run_turn. unfold goodbye_events.
  destruct (download_history s) as [|t h] eqn:Hh.
  - run_turn. unfold advance. rewrite <- ?app_assoc, Hh. reflexivity.
  - run_turn. rewrite Hh.
    destruct (statistics_rows _) as [rows|e]; run_turn.
    + unfold advance. rewrite <- ?app_assoc, Hh. reflexivity.
    + destruct s; cbn in *. by rewrite Hh.
Qed.


(** A turn with an empty URL. *)
Lemma empty_url_turn s choice platform reply rest :
  prompt_replies s = Ok choice :: Ok reply :: rest →
  choice ≠ "0" →
  Platform.getitem (platforms s) choice = Some platform →
  Str.strip reply = "" →
  iteration s =
    (Ok Continue,
     advance s
       (menu_events s (Ok choice) ++ guide_events platform (Ok reply)
          ++ [Print empty_url_notice])
       rest (confirm_replies s) (download_history s)).
Proof.
  intros Hreplies Hchoice Hplatform Hempty.
  run_turn. rewrite Hreplies. run_turn.
  unfold Str.eqb. rewrite (bool_decide_eq_false_2 _ Hchoice).
  run_turn. rewrite Hplatform. run_turn.
  rewrite Hempty. rewrite bool_decide_eq_true_2 by done. run_turn.
  unfold advance. rewrite <- ?app_assoc. reflexivity.
Qed.

Lemma platform_check_run url platform s :
  platform_check url platform s =
    match Platform.detect_platform url with
    | Some detected =>
        if bool_decide (name detected = name platform) then (Ok true, s)
        else (next_reply (confirm_replies s),
              advance s
                (mismatch_events detected platform (next_reply (confirm_replies s)))
                (prompt_replies s) (tail (confirm_replies s)) (download_history s))
    | None => (Ok true, s)
    end.
Proof.
  unfold platform_check.
  destruct (Platform.detect_platform url) as [detected|]; [| done].
  unfold Str.eqb. destruct (bool_decide (name detected = name platform)).
  - done.
  - run_turn. unfold advance, mismatch_events. rewrite <- ?app_assoc.
    by destruct (next_reply (confirm_replies s)).
Qed.

(** A turn up to the validation of the URL. *)
Lemma turn_reaches_check s choice platform reply rest :
  prompt_replies s = Ok choice :: Ok reply :: rest →
  choice ≠ "0" →
  Platform.getitem (platforms s) choice = Some platform →
  Str.strip reply ≠ "" →
  iteration s =
    (go_on ← platform_check (Str.strip reply) platform;
     if negb go_on then mret Continue else download_step (Str.strip reply) platform)
      (advance s (menu_events s (Ok choice) ++ guide_events platform (Ok reply))
         rest (confirm_replies s) (download_history s)).
Proof.
  intros Hreplies Hchoice Hplatform Hurl.
  run_turn. rewrite Hreplies. run_turn.
  unfold Str.eqb. rewrite (bool_decide_eq_false_2 _ Hchoice).
  run_turn. rewrite Hplatform. run_turn.
  rewrite (bool_decide_eq_false_2 _ Hurl). rewrite <- ?app_assoc.
  reflexivity.
Qed.

Lemma goodbye_events_quiet h evs :
  goodbye_events h = Ok evs →
  Forall (fun ev => is_continue_anyway ev = false) evs.
Proof.
  unfold goodbye_events. destruct h as [|t h].
  - intros [= <-]. by repeat constructor.
  - destruct (statistics_rows _) as [rows|e]; [| done].
    intros [= <-]. by repeat constructor.
Qed.

Ltac quiet_events :=
  repeat first
    [ apply Forall_nil_2
    | apply Forall_cons_2; [reflexivity |]
    | apply Forall_app_2
    | eapply goodbye_events_quiet; eassumption ].

(** What [download_step] adds to the log: it starts with the status line
    and the probe of [download_video], and it never asks the question of
    the platform check; the replies to the text prompts stay. *)
Lemma download_step_frame url platform s :
  ∃ outcome evs,
    console_log (snd (download_step url platform s)) =
      console_log s ++
        Print "" :: Status fetching_status ::
        ExtractInfo url (ydl_options_for (output_dir s) platform) outcome :: evs ∧
    Forall (fun ev => is_continue_anyway ev = false) evs ∧
    prompt_replies (snd (download_step url platform s)) = prompt_replies s ∧
    ∃ added, download_history (snd (download_step url platform s)) =
               download_history s ++ added.
Proof.
  cbv [download_step mbind M_bind mret M_ret emit console_print Confirm_ask negb].
  pose proof (download_video_run url platform
                (set_console_log (console_log s ++ [Print ""]) s)) as Hrun.
  destruct (download_video url platform _) as [r s2].
  cbn [fst snd] in Hrun.
  destruct Hrun; unfold except_Exception;
    try (destruct (is_Exception e) eqn:Hcaught); cbn [fst snd];
    state_simpl;
    cbv [fetch_events confirm_events info_events probe_events success_events];
    state_simpl;
    try (match goal with
         | |- context [next_reply ?l] => destruct (next_reply l) as [[]|?]
         end);
    try (rewrite say_goodbye_run; state_simpl;
         match goal with
         | |- context [goodbye_events ?h] =>
             destruct (goodbye_events h) as [bye|?] eqn:Hbye
         end);
    state_simpl; rewrite <- ?app_assoc; cbn [app];
    (do 2 eexists; split; [reflexivity |];
     split; [quiet_events |]; split; [reflexivity |];
     first [by exists []; rewrite app_nil_r | by eexists]).
Qed.

Lemma emitted_extend s s' evs :
  console_log s' = console_log s ++ evs → emitted s s' = evs.
Proof. intros H. unfold emitted. rewrite H. apply drop_app_length. Qed.


(** What a turn adds to the log once it has reached [download_step]. *)
Lemma emitted_download_step url platform s evs pr cr h :
  ∃ outcome more,
    emitted s (snd (download_step url platform (advance s evs pr cr h))) =
      evs ++ Print "" :: Status fetching_status ::
        ExtractInfo url (ydl_options_for (output_dir s) platform) outcome :: more ∧
    Forall (fun ev => is_continue_anyway ev = false) more.
Proof.
  destruct (download_step_frame url platform (advance s evs pr cr h))
    as (outcome & more & Hlog & Hquiet & _ & _).
  exists outcome, more. split; [| done].
  apply emitted_extend. rewrite Hlog. cbn [advance console_log output_dir].
  by rewrite <- app_assoc.
Qed.

(** A turn that reaches the validation and finds no other platform in the
    URL goes on to the download without a question. *)
Lemma turn_without_mismatch s choice platform reply rest :
  prompt_replies s = Ok choice :: Ok reply :: rest →
  choice ≠ "0" →
  Platform.getitem (platforms s) choice = Some platform →
  Str.strip reply ≠ "" →
  (∀ detected, Platform.detect_platform (Str.strip reply) = Some detected →
               name detected = name platform) →
  iteration s =
    download_step (Str.strip reply) platform
      (advance s (menu_events s (Ok choice) ++ guide_events platform (Ok reply))
         rest (confirm_replies s) (download_history s)).
Proof.
  intros Hreplies Hchoice Hplatform Hurl Hsame.
  rewrite (turn_reaches_check s choice platform reply rest
             Hreplies Hchoice Hplatform Hurl).
  cbv [mbind M_bind mret M_ret]. rewrite platform_check_run.
  destruct (Platform.detect_platform (Str.strip reply)) as [detected|]; [| done].
  by rewrite (bool_decide_eq_true_2 _ (Hsame detected eq_refl)).
Qed.

(** A turn that finds another platform in the URL warns, asks, and goes by
    the answer. *)
Lemma turn_with_mismatch s choice platform reply rest detected :
  prompt_replies s = Ok choice :: Ok reply :: rest →
  choice ≠ "0" →
  Platform.getitem (platforms s) choice = Some platform →
  Str.strip reply ≠ "" →
  Platform.detect_platform (Str.strip reply) = Some detected →
  name detected ≠ name platform →
  let s1 :=
    advance s
      (menu_events s (Ok choice) ++ guide_events platform (Ok reply) ++
       mismatch_events detected platform (next_reply (confirm_replies s)))
      rest (tail (confirm_replies s)) (download_history s) in
  iteration s =
    match next_reply (confirm_replies s) with
    | Ok true => download_step (Str.strip reply) platform s1
    | Ok false => (Ok Continue, s1)
    | Raise e => (Raise e, s1)
    end.
Proof.
  intros Hreplies Hchoice Hplatform Hurl Hdetect Hname s1. subst s1.
  rewrite (turn_reaches_check s choice platform reply rest
             Hreplies Hchoice Hplatform Hurl).
  cbv [mbind M_bind mret M_ret]. rewrite platform_check_run.
  rewrite Hdetect, (bool_decide_eq_false_2 _ Hname).
  cbn [confirm_replies prompt_replies download_history advance].
  rewrite advance_advance, <- !app_assoc.
  by destruct (next_reply (confirm_replies s)) as [[]|e].
Qed.

Lemma turn_with_mismatch_emitted s choice platform reply rest detected :
  prompt_replies s = Ok choice :: Ok reply :: rest →
  choice ≠ "0" →
  Platform.getitem (platforms s) choice = Some platform →
  Str.strip reply ≠ "" →
  Platform.detect_platform (Str.strip reply) = Some detected →
  name detected ≠ name platform →
  ∃ evs,
    emitted s (snd (iteration s)) =
      menu_events s (Ok choice) ++ guide_events platform (Ok reply) ++
      mismatch_events detected platform (next_reply (confirm_replies s)) ++ evs.
Proof.
  intros Hreplies Hchoice Hplatform Hurl Hdetect Hname.
  rewrite (turn_with_mismatch s choice platform reply rest detected) by done.
  destruct (next_reply (confirm_replies s)) as [[]|e].
  - destruct (emitted_download_step (Str.strip reply) platform s
                (menu_events s (Ok choice) ++ guide_events platform (Ok reply) ++
                 mismatch_events detected platform (Ok true)) rest
                (tail (confirm_replies s)) (download_history s))
      as (outcome & more & -> & _).
    eexists. rewrite <- !app_assoc. reflexivity.
  - exists []. cbn [snd]. rewrite emitted_advance. by rewrite app_nil_r.
  - exists []. cbn [snd]. rewrite emitted_advance. by rewrite app_nil_r.
Qed.

(** ** Termination of the loop *)

(** The ways a turn can go: it stops before any download, with the history
    as it was, or it reaches the download step; a turn that goes on has
    read replies of the user. *)
Lemma iteration_cases s :
  (∃ r evs pr cr,
     iteration s = (r, advance s evs pr cr (download_history s)) ∧
     (r = Ok Continue → (length pr < length (prompt_replies s))%nat)) ∨
  (∃ url platform evs pr cr,
     iteration s =
       download_step url platform (advance s evs pr cr (download_history s)) ∧
     (length pr < length (prompt_replies s))%nat).
Proof.
  destruct (prompt_replies s) as [|[choice|e] rest] eqn:Hreplies.
  - left. run_head. rewrite Hreplies. run_head.
    eexists _, [_; _; _; _], _, _. unfold advance. rewrite <- ?app_assoc.
    split; [reflexivity | done].
  - destruct (decide (choice = "0")) as [->|Hchoice].
    { left. run_head. rewrite Hreplies. run_head.
      unfold Str.eqb. rewrite bool_decide_eq_true_2 by done.
      rewrite say_goodbye_run. state_simpl.
      destruct (goodbye_events _) as [bye|e].
      - eexists _, ([_; _; _; _] ++ bye), _, _. rewrite <- ?app_assoc.
        split; [reflexivity | done].
      - eexists _, [_; _; _; _], _, _. rewrite <- ?app_assoc.
        split; [reflexivity | done]. }
    destruct (Platform.getitem (platforms s) choice) as [platform|] eqn:Hplatform.
    2: { left. run_head. rewrite Hreplies. run_head.
         unfold Str.eqb. rewrite (bool_decide_eq_false_2 _ Hchoice).
         run_head. rewrite Hplatform.
         eexists _, [_; _; _; _], _, _. unfold advance. rewrite <- ?app_assoc.
         split; [reflexivity | done]. }
    destruct rest as [|[reply|e] rest].
    + left. run_head. rewrite Hreplies. run_head.
      unfold Str.eqb. rewrite (bool_decide_eq_false_2 _ Hchoice).
      run_head. rewrite Hplatform. run_head.
      eexists _, [_; _; _; _; _; _; _; _], _, _. unfold advance.
      rewrite <- ?app_assoc. split; [reflexivity | done].
    + destruct (decide (Str.strip reply = "")) as [Hempty|Hurl].
      { left. rewrite (empty_url_turn s choice platform reply rest
                         Hreplies Hchoice Hplatform Hempty).
        eexists _, _, _, _. split; [reflexivity |]. intros _. cbn. lia. }
      rewrite (turn_reaches_check s choice platform reply rest
                 Hreplies Hchoice Hplatform Hurl).
      cbv [mbind M_bind mret M_ret]. rewrite platform_check_run.
      destruct (Platform.detect_platform _) as [detected|].
      * destruct (bool_decide _).
        -- right. cbn [negb]. eexists _, _, _, _, _.
           split; [reflexivity |]. cbn. lia.
        -- cbn [confirm_replies prompt_replies download_history advance].
           rewrite advance_advance.
           destruct (next_reply (confirm_replies s)) as [[]|e]; cbn [negb].
           ++ right. eexists _, _, _, _, _. split; [reflexivity |]. cbn. lia.
           ++ left. eexists _, _, _, _. split; [reflexivity |]. intros _. cbn. lia.
           ++ left. eexists _, _, _, _. split; [reflexivity | done].
      * right. cbn [negb]. eexists _, _, _, _, _.
        split; [reflexivity |]. cbn. lia.
    + left. run_head. rewrite Hreplies. run_head.
      unfold Str.eqb. rewrite (bool_decide_eq_false_2 _ Hchoice).
      run_head. rewrite Hplatform. run_head.
      eexists _, [_; _; _; _; _; _; _; _], _, _. unfold advance.
      rewrite <- ?app_assoc. split; [reflexivity | done].
  - left. run_head. rewrite Hreplies. run_head.
    eexists _, [_; _; _; _], _, _. unfold advance. rewrite <- ?app_assoc.
    split; [reflexivity | done].
Qed.


(** A turn only adds to the history. *)
Lemma iteration_history s :
  ∃ added, download_history (snd (iteration s)) = download_history s ++ added.
Proof.
  destruct (iteration_cases s)
    as [(r & evs & pr & cr & -> & _)
       | (url & platform & evs & pr & cr & -> & _)].
  - exists []. cbn. by rewrite app_nil_r.
  - destruct (download_step_frame url platform
                (advance s evs pr cr (download_history s)))
      as (_ & _ & _ & _ & _ & added & Hadded).
    by exists added.
Qed.

Lemma run_loop_history (fuel : nat) (s : state) :
  ∃ added, download_history (snd (run_loop fuel s)) = download_history s ++ added.
Proof.
  revert s; induction fuel as [|fuel IH]; intros s.
  - exists []. cbn. by rewrite app_nil_r.
  - cbn [run_loop]. cbv [mbind M_bind mret M_ret].
    destruct (iteration_history s) as [added Hadded].
    destruct (iteration s) as [[[]|e] s']; cbn [snd] in *.
    + destruct (IH s') as [more Hmore].
      exists (added ++ more). by rewrite Hmore, Hadded, app_assoc.
    + by exists added.
    + by exists added.
Qed.

(** Over a whole session the history only grows. *)
Lemma run_history (s : state) :
  ∃ added, download_history (snd (run s)) = download_history s ++ added.
Proof.
  unfold run. cbv [mbind M_bind mret M_ret show_banner emit get].
  apply (run_loop_history _ (set_console_log (console_log s ++ [BannerText]) s)).
Qed.



(** A history entry that is no string (a title given as [None] by the
    extractor) makes the statistics raise: the exit then shows neither the
    table nor the closing panel. *)
Remark statistics_of_untitled_entry (s : state) (rest : list (result string)) :
  prompt_replies s = Ok "0" :: rest →
  download_history s = [PNone] →
  fst (iteration s) = Raise (no_len PNone) ∧
  emitted s (snd (iteration s)) = menu_events s (Ok "0").
Proof.
  intros Hreplies Hhistory.
  run_head. rewrite Hreplies. run_head.
  unfold Str.eqb. rewrite bool_decide_eq_true_2 by done.
  rewrite say_goodbye_run. state_simpl. rewrite Hhistory. cbn [fst snd].
  split; [done |]. apply emitted_extend. cbn [console_log].
  by rewrite <- ?app_assoc.
Qed.

(** ** Main results *)

(** C10.  Each of the keys 1 to 5 is bound in the catalog to a descriptor
    with at least one domain, and every example URL of the descriptor
    contains one of the descriptor's own domains. *)
Theorem catalog_examples_contain_own_domain :
  Forall
    (fun key =>
       ∃ p, Platform.getitem Platform.get_all key = Some p ∧
            domains p ≠ [] ∧
            Forall (fun example => Exists (fun d => occurs d example) (domains p))
                   (examples p))
    ["1"; "2"; "3"; "4"; "5"].
Proof.
  assert (∀ p,
    forallb (fun example => existsb (fun d => Str.contains d example) (domains p))
            (examples p) = true →
    Forall (fun example => Exists (fun d => occurs d example) (domains p))
           (examples p)) as Hcheck.
  { intros p H. apply Forall_forall. intros example Hin.
    apply list_elem_of_In in Hin.
    rewrite forallb_forall in H. specialize (H _ Hin).
    apply existsb_exists in H as (d & Hd & Hc).
    apply Exists_exists. exists d. split; [by apply list_elem_of_In |].
    by apply contains_occurs. }
  repeat (apply Forall_cons; split);
    [ eexists; (split; [reflexivity | split; [discriminate | apply Hcheck; reflexivity]]) .. |].
  constructor.
Qed.


(** C7.  In the video-information table a duration of 125 seconds reads
    2m 5s, a duration of 0 (given or defaulted) reads N/A, and a file size
    of 10,485,760 bytes reads 10.00 MB. *)
Theorem video_info_formatting :
  format_duration (PInt 125) = Ok "2m 5s" ∧
  format_duration (PInt 0) = Ok "N/A" ∧
  format_filesize (PInt 10485760) = Ok (PStr "10.00 MB") ∧
  video_info_rows (<["duration" := PInt 125]> (<["filesize" := PInt 10485760]> ∅)) =
    Ok [ ("📝 Title", PStr "N/A");
         ("👤 Uploader", PStr "N/A");
         ("⏱️  Duration", PStr "2m 5s");
         ("👁️  Views", PStr "N/A");
         ("💾 File Size", PStr "10.00 MB");
         ("📅 Upload Date", PStr "N/A") ] ∧
  (∀ rows, video_info_rows (<["duration" := PInt 0]> ∅) = Ok rows →
           rows !! 2%nat = Some ("⏱️  Duration", PStr "N/A")) ∧
  (∀ rows, video_info_rows ∅ = Ok rows →
           rows !! 2%nat = Some ("⏱️  Duration", PStr "N/A")).
Proof.
  repeat split; try reflexivity.
  - intros rows H. vm_compute in H. by injection H as <-.
  - intros rows H. vm_compute in H. by injection H as <-.
Qed.

(** C1.  The history only grows, and it grows exactly when the call
    answers success: the call answers [True] if and only if the probe
    succeeded, the confirmation was accepted and the fetch succeeded; the
    history is then the old one followed by the title of the metadata, or
    by Unknown when the metadata has no title; on every other outcome the
    history is the old one. *)
Theorem download_history_grows_on_success url platform s :
  let r := fst (download_video url platform s) in
  let s' := snd (download_video url platform s) in
  let evs := emitted s s' in
  (r = Ok true ↔
   ∃ info, probe_succeeded url info evs ∧ confirmation_accepted evs ∧
           fetch_succeeded url evs) ∧
  (∀ info, probe_succeeded url info evs → confirmation_accepted evs →
           fetch_succeeded url evs →
           download_history s' =
             download_history s ++
               [match info !! "title" with Some title => title | None => PStr "Unknown" end]) ∧
  (r ≠ Ok true → download_history s' = download_history s) ∧
  (∃ added, download_history s' = download_history s ++ added) ∧
  (∃ added, download_history (snd (run s)) = download_history s ++ added).
Proof.
  intros r s' evs. subst r s' evs.
  unfold probe_succeeded, confirmation_accepted, fetch_succeeded.
  run_cases url platform s;
    try (destruct (is_Exception e) eqn:Hcaught; cbn [fst snd app] in * ).
  10: {
    split; [| split; [| split; [| split]]].
    - split; [intros _ | done]. exists info.
      split; [eexists | split; [| eexists]]; elem_now.
    - intros info' [o Hp] _ _. elem_inv Hp. injection Hp as _ <-. reflexivity.
    - done.
    - by eexists.
    - apply run_history. }
  all: split; [| split; [| split; [| split]]];
    [ split; [discriminate | intros (i & _ & _ & [o Hd]); elem_inv Hd]
    | intros i _ _ [o Hd]; elem_inv Hd
    | done
    | by exists []; rewrite app_nil_r
    | apply run_history ].
Qed.


(** C4.  When the probe succeeded and the user declines the confirmation,
    [download_video] answers [False], the last thing it prints is the
    cancellation notice, it shows no error panel, starts no transfer and
    leaves the history as it was. *)
Theorem declined_confirmation_cancels url platform s info :
  let r := fst (download_video url platform s) in
  let s' := snd (download_video url platform s) in
  let evs := emitted s s' in
  probe_succeeded url info evs →
  confirmation_declined evs →
  r = Ok false ∧
  last evs = Some (Print cancelled_notice) ∧
  List.filter is_error_panel evs = [] ∧
  List.filter is_download evs = [] ∧
  download_history s' = download_history s ∧
  confirm_replies s' = tail (confirm_replies s).
Proof.
  intros r s' evs. subst r s' evs.
  unfold probe_succeeded, confirmation_declined. intros _ Hev.
  run_cases url platform s;
    try (destruct (is_Exception e); cbn [fst snd app] in * );
    elem_inv Hev.
  done.
Qed.

(** C8.  When the URL entered is empty (after [strip]), the turn prints the
    notice and ends with [continue], back to the menu: nothing of
    [download_video] happens, no status line and no call of the extractor. *)
Theorem empty_url_returns_to_menu s choice platform reply rest :
  prompt_replies s = Ok choice :: Ok reply :: rest →
  choice ≠ "0" →
  Platform.getitem (platforms s) choice = Some platform →
  Str.strip reply = "" →
  iteration s =
    (Ok Continue,
     advance s
       (menu_events s (Ok choice) ++ guide_events platform (Ok reply)
          ++ [Print empty_url_notice])
       rest (confirm_replies s) (download_history s)) ∧
  List.filter is_extractor_event (emitted s (snd (iteration s))) = [].
Proof.
  intros Hreplies Hchoice Hplatform Hempty.
  pose proof (empty_url_turn s choice platform reply rest
                Hreplies Hchoice Hplatform Hempty) as Hrun.
  split; [done |].
  rewrite Hrun. cbn [snd]. rewrite emitted_advance. reflexivity.
Qed.

(** C5.  In the platform check of a turn, after a URL that is not empty
    was entered for the selected platform: when the platform detected in
    the URL differs from the selected one the user is warned and asked
    whether to continue; a refusal ends the turn, back to the menu, with no
    call of [download_video]; an acceptance, or the absence of a mismatch,
    leads to the download step, which calls [download_video] on the URL
    with the selected platform. *)
Theorem platform_mismatch_asks_before_download s choice platform reply rest url :
  prompt_replies s = Ok choice :: Ok reply :: rest →
  choice ≠ "0" →
  Platform.getitem (platforms s) choice = Some platform →
  Str.strip reply = url →
  url ≠ "" →
  let asked := menu_events s (Ok choice) ++ guide_events platform (Ok reply) in
  let answer := next_reply (confirm_replies s) in
  (∀ detected,
     Platform.detect_platform url = Some detected →
     name detected ≠ name platform →
     (∃ evs, emitted s (snd (iteration s)) =
               asked ++ mismatch_events detected platform answer ++ evs) ∧
     (answer = Ok false →
        iteration s =
          (Ok Continue,
           advance s (asked ++ mismatch_events detected platform answer)
             rest (tail (confirm_replies s)) (download_history s)) ∧
        List.filter is_extractor_event (emitted s (snd (iteration s))) = []) ∧
     (answer = Ok true →
        iteration s =
          download_step url platform
            (advance s (asked ++ mismatch_events detected platform answer)
               rest (tail (confirm_replies s)) (download_history s)))) ∧
  ((∀ detected, Platform.detect_platform url = Some detected →
                name detected = name platform) →
     iteration s =
       download_step url platform
         (advance s asked rest (confirm_replies s) (download_history s))) ∧
  (∀ s1, ∃ outcome evs,
     emitted s1 (snd (download_step url platform s1)) =
       Print "" :: Status fetching_status ::
       ExtractInfo url (ydl_options_for (output_dir s1) platform) outcome :: evs) ∧
  (platforms s = Platform.get_all →
   ∀ detected, Platform.detect_platform url = Some detected →
               detected ≠ platform ↔ name detected ≠ name platform).
Proof.
  intros Hreplies Hchoice Hplatform <- Hurl asked answer.
  split; [| split; [| split]]; cycle 3.
  { intros Hcatalog detected Hdetected. rewrite Hcatalog in Hplatform.
    by eapply differs_by_name. }
  - intros detected Hdetect Hname.
    pose proof (turn_with_mismatch s choice platform reply rest detected
                  Hreplies Hchoice Hplatform Hurl Hdetect Hname) as Hturn.
    cbv zeta in Hturn. fold answer in Hturn.
    split; [| split].
    + destruct (turn_with_mismatch_emitted s choice platform reply rest detected
                  Hreplies Hchoice Hplatform Hurl Hdetect Hname) as [evs Hevs].
      exists evs. rewrite Hevs. subst asked answer. by rewrite <- !app_assoc.
    + intros Hanswer. rewrite Hanswer in Hturn |- *.
      rewrite Hturn. subst asked. rewrite <- !app_assoc. split; [done |].
      cbn [snd]. rewrite emitted_advance. reflexivity.
    + intros Hanswer. rewrite Hanswer in Hturn |- *.
      rewrite Hturn. subst asked. by rewrite <- !app_assoc.
  - intros Hsame. by apply turn_without_mismatch.
  - intros s1.
    destruct (download_step_frame (Str.strip reply) platform s1)
      as (outcome & evs & Hlog & _ & _ & _).
    exists outcome, evs. by apply emitted_extend.
Qed.



(** ** Further lemmas *)

Lemma displays_app live evs evs' :
  displays live (evs ++ evs') =
    match displays live evs with
    | Some live' => displays live' evs'
    | None => None
    end.
Proof.
  revert live; induction evs as [|ev evs IH]; intros live; [done |].
  destruct ev, live; cbn; auto.
Qed.

Lemma hook_call_displays d h :
  displays (progress h) (snd (hook_call d h)) = Some (progress (snd (fst (hook_call d h)))).
Proof.
  unfold hook_call. destruct (d !! "status") as [status|]; [| done].
  repeat case_bool_decide; destruct (progress h) eqn:Hp; cbn; try done.
  all: by rewrite ?Hp.
Qed.

Lemma round_half_even_near (num den : Z) :
  0 < den →
  2 * Z.abs (den * Py.round_half_even num den - num) ≤ den.
Proof.
  intros Hden. unfold Py.round_half_even.
  pose proof (Z.div_mod num den ltac:(lia)) as Hdiv.
  pose proof (Z.mod_pos_bound num den Hden) as Hmod.
  set (q := num / den) in *. set (r := num mod den) in *. clearbody q r.
  destruct (Z.ltb_spec (2 * r) den); [lia |].
  destruct (Z.ltb_spec den (2 * r)); [lia |].
  destruct (Z.even q); lia.
Qed.

Lemma remove_commas_uint (d : Decimal.uint) :
  remove_commas (NilEmpty.string_of_uint d) = NilEmpty.string_of_uint d.
Proof. induction d; cbn; by rewrite ?IHd. Qed.

Lemma remove_commas_of_list (l : list ascii) :
  remove_commas (string_of_list_ascii l) =
    string_of_list_ascii (List.filter (fun c => negb (bool_decide (c = ","%char))) l).
Proof.
  induction l as [|c l IH]; cbn; [done |].
  destruct (bool_decide (c = ","%char)); cbn; by rewrite IH.
Qed.

Lemma group3_filter (f : ascii → bool) (l : list ascii) (k : nat) (acc : list ascii) :
  f ","%char = false →
  List.filter f (Py.group3 l k acc) = rev (List.filter f l) ++ List.filter f acc.
Proof.
  intros Hcomma. revert k acc; induction l as [|c l IH]; intros k acc; cbn; [done |].
  destruct k; rewrite IH; cbn; rewrite ?Hcomma;
    destruct (f c); cbn; by rewrite <- ?app_assoc.
Qed.

Lemma group3_length (l : list ascii) (k : nat) (acc : list ascii) :
  (k ≤ 2)%nat →
  length (Py.group3 l k acc) =
    (length acc + length l + (length l + 2 - k) / 3)%nat.
Proof.
  revert k acc; induction l as [|c l IH]; intros k acc Hk; cbn [Py.group3 length].
  - rewrite Nat.div_small by lia. lia.
  - destruct k as [|k]; rewrite IH by lia; cbn [length].
    + replace (S (length l) + 2 - 0)%nat with (length l + 2 - 2 + 1 * 3)%nat by lia.
      rewrite Nat.div_add by lia. lia.
    + replace (S (length l) + 2 - S k)%nat with (length l + 2 - k)%nat by lia. lia.
Qed.

Lemma remove_commas_grouped (s : string) :
  remove_commas s = s →
  remove_commas
    (string_of_list_ascii
       (match rev (list_ascii_of_string s) with
        | [] => []
        | c :: rest => Py.group3 rest 2 [c]
        end)) = s.
Proof.
  intros Hs. rewrite remove_commas_of_list.
  set (f := fun c => negb (bool_decide (c = ","%char))).
  assert (List.filter f (list_ascii_of_string s) = list_ascii_of_string s) as Hl.
  { rewrite <- Hs at 2. clear Hs. induction s as [|c s IH]; cbn; [done |].
    unfold f at 1. destruct (bool_decide (c = ","%char)); cbn; [done |].
    by rewrite IH. }
  destruct (rev (list_ascii_of_string s)) as [|c rest] eqn:Hrev.
  - apply (f_equal (@rev _)) in Hrev. rewrite rev_involutive in Hrev. cbn in Hrev.
    rewrite <- (string_of_list_ascii_of_string s), Hrev. done.
  - rewrite group3_filter by done.
    rewrite <- (List.filter_rev f), <- (List.filter_app f).
    replace (rev rest ++ [c]) with (rev (c :: rest)) by done.
    rewrite <- Hrev, rev_involutive, Hl.
    apply string_of_list_ascii_of_string.
Qed.












Lemma not_counted (evs : list event) :
  List.filter is_counted evs = [] →
  List.filter is_success_panel evs = [] ∧ List.filter is_download evs = [] ∧
  List.filter is_consent evs = [] ∧ List.filter is_completed evs = [].
Proof.
  induction evs as [|ev evs IH]; [done |]. cbn [List.filter].
  destruct (is_counted ev) eqn:Hev; [done |]. intros Hrest.
  destruct (IH Hrest) as (-> & -> & -> & ->).
  unfold is_counted in Hev.
  apply orb_false_iff in Hev as [Hev Hconsent].
  apply orb_false_iff in Hev as [Hpanel Hdownload].
  rewrite Hpanel, Hdownload, Hconsent.
  by destruct ev as [| | | | | | | | | | | | |? ? [|]].
Qed.

Lemma balanced_refl s : balanced s s.
Proof. exists [], []. by rewrite !app_nil_r. Qed.

Lemma balanced_trans s1 s2 s3 : balanced s1 s2 → balanced s2 s3 → balanced s1 s3.
Proof.
  intros (evs & added & Hlog & Hhist & Hlen & Hasked & Hdone)
         (evs' & added' & Hlog' & Hhist' & Hlen' & Hasked' & Hdone').
  exists (evs ++ evs'), (added ++ added').
  rewrite Hlog', Hlog, Hhist', Hhist, !app_assoc, !List.filter_app, !length_app.
  repeat split; lia.
Qed.

Lemma balanced_advance s evs pr cr :
  List.filter is_counted evs = [] →
  balanced s (advance s evs pr cr (download_history s)).
Proof.
  intros Hquiet. apply not_counted in Hquiet as (Hpanel & Hdownload & Hconsent & Hdone).
  exists evs, []. cbn. by rewrite Hpanel, Hdownload, Hconsent, Hdone, app_nil_r.
Qed.

Lemma balanced_download_video url platform s :
  balanced s (snd (download_video url platform s)).
Proof.
  unfold balanced.
  run_cases url platform s;
    try (destruct (is_Exception e) eqn:Hcaught; cbn [fst snd app] in * );
    cbn [console_log download_history advance];
    first [ eexists _, []; split; [reflexivity |];
            split; [by rewrite app_nil_r | by repeat split]
          | eexists _, [_]; split; [reflexivity |];
            split; [reflexivity | by repeat split] ].
Qed.

Lemma goodbye_events_shape h bye :
  goodbye_events h = Ok bye →
  List.filter is_counted bye = [] ∧
  ∃ stats, bye = stats ++ farewell_events ∧
    (h = [] → stats = []) ∧
    (h ≠ [] → ∃ rows, statistics_rows (enumerate 1 h) = Ok rows ∧
                      stats = statistics_events rows).
Proof.
  unfold goodbye_events. destruct h as [|t h].
  - intros [= <-]. split; [done |]. exists []. by repeat split.
  - destruct (statistics_rows _) as [rows|e]; [| done].
    intros [= <-]. split; [done |]. exists (statistics_events rows).
    split; [done |]. split; [done |]. intros _. by exists rows.
Qed.

Lemma balanced_say_goodbye s : balanced s (snd (say_goodbye s)).
Proof.
  rewrite say_goodbye_run.
  destruct (goodbye_events (download_history s)) as [bye|e] eqn:Hbye.
  - apply balanced_advance. by apply goodbye_events_shape in Hbye as [? _].
  - apply balanced_refl.
Qed.

Lemma say_goodbye_break s s' :
  say_goodbye s = (Ok Break, s') → said_goodbye s'.
Proof.
  rewrite say_goodbye_run.
  destruct (goodbye_events (download_history s)) as [bye|e] eqn:Hbye; [| done].
  intros [= <-]. by exists (console_log s), bye.
Qed.

(** The download step, by the answer of [download_video] and the reply to
    the question that follows. *)
Lemma download_step_run url platform s :
  let run := download_video url platform (advance s [Print ""]
               (prompt_replies s) (confirm_replies s) (download_history s)) in
  let reply := next_reply (confirm_replies (snd run)) in
  let asked :=
    advance (snd run) [Print ""; ConfirmAsk another_question true reply]
      (prompt_replies (snd run)) (tail (confirm_replies (snd run)))
      (download_history (snd run)) in
  download_step url platform s =
    match fst run with
    | Raise e => (Raise e, snd run)
    | Ok _ =>
        match reply with
        | Ok true => (Ok Continue, asked)
        | Ok false => say_goodbye asked
        | Raise e => (Raise e, asked)
        end
    end.
Proof.
  cbv [download_step mbind M_bind mret M_ret emit console_print Confirm_ask negb].
  state_simpl.
  destruct (download_video url platform _) as [[b|e] s2]; cbn [fst snd]; [| done].
  state_simpl. rewrite <- ?app_assoc.
  by destruct (next_reply (confirm_replies s2)) as [[]|e].
Qed.

Lemma balanced_download_step url platform s :
  balanced s (snd (download_step url platform s)).
Proof.
  rewrite download_step_run. cbv zeta.
  set (s1 := advance s [Print ""] _ _ _).
  assert (balanced s s1) as H1 by by apply balanced_advance.
  pose proof (balanced_download_video url platform s1) as H2.
  destruct (download_video url platform s1) as [[b|e] s2]; cbn [fst snd] in *.
  2: by eapply balanced_trans.
  set (s3 := advance s2 _ _ _ _).
  assert (balanced s2 s3) as H3.
  { apply balanced_advance.
    by destruct (next_reply (confirm_replies s2)) as [[]|]. }
  assert (balanced s s3) as H by (eapply balanced_trans; [| exact H3];
                                  by eapply balanced_trans).
  destruct (next_reply (confirm_replies s2)) as [[]|e]; cbn [snd]; try done.
  eapply balanced_trans; [exact H | apply balanced_say_goodbye].
Qed.

Lemma download_step_break url platform s s' :
  download_step url platform s = (Ok Break, s') → said_goodbye s'.
Proof.
  rewrite download_step_run. cbv zeta.
  destruct (download_video url platform _) as [[b|e] s2]; cbn [fst snd]; [| done].
  destruct (next_reply (confirm_replies s2)) as [[]|e]; try done.
  apply say_goodbye_break.
Qed.

(** The ways a turn can go, with what it shows before any download:
    nothing that the books count, and the exit's events when it ends the
    loop. *)
Lemma iteration_turn_cases s :
  (∃ r evs pr cr,
     iteration s = (r, advance s evs pr cr (download_history s)) ∧
     List.filter is_counted evs = [] ∧
     (r = Ok Break →
        ∃ pre bye, evs = pre ++ bye ∧
                   goodbye_events (download_history s) = Ok bye)) ∨
  (∃ url platform evs pr cr,
     iteration s =
       download_step url platform (advance s evs pr cr (download_history s)) ∧
     List.filter is_counted evs = []).
Proof.
  destruct (prompt_replies s) as [|[choice|e] rest] eqn:Hreplies.
  - left. run_head. rewrite Hreplies. run_head.
    eexists _, [_; _; _; _], _, _. unfold advance. rewrite <- ?app_assoc.
    split; [reflexivity |]. by split.
  - destruct (decide (choice = "0")) as [->|Hchoice].
    { left. run_head. rewrite Hreplies. run_head.
      unfold Str.eqb. rewrite bool_decide_eq_true_2 by done.
      rewrite say_goodbye_run. state_simpl.
      destruct (goodbye_events _) as [bye|e] eqn:Hbye.
      - eexists _, ([_; _; _; _] ++ bye), _, _. rewrite <- ?app_assoc.
        split; [reflexivity |]. split.
        + rewrite List.filter_app.
          by apply goodbye_events_shape in Hbye as [-> _].
        + intros _. by eexists _, bye.
      - eexists _, [_; _; _; _], _, _. rewrite <- ?app_assoc.
        split; [reflexivity |]. by split. }
    destruct (Platform.getitem (platforms s) choice) as [platform|] eqn:Hplatform.
    2: { left. run_head. rewrite Hreplies. run_head.
         unfold Str.eqb. rewrite (bool_decide_eq_false_2 _ Hchoice).
         run_head. rewrite Hplatform.
         eexists _, [_; _; _; _], _, _. unfold advance. rewrite <- ?app_assoc.
         split; [reflexivity |]. by split. }
    destruct rest as [|[reply|e] rest].
    + left. run_head. rewrite Hreplies. run_head.
      unfold Str.eqb. rewrite (bool_decide_eq_false_2 _ Hchoice).
      run_head. rewrite Hplatform. run_head.
      eexists _, [_; _; _; _; _; _; _; _], _, _. unfold advance.
      rewrite <- ?app_assoc. split; [reflexivity |]. by split.
    + destruct (decide (Str.strip reply = "")) as [Hempty|Hurl].
      { left. rewrite (empty_url_turn s choice platform reply rest
                         Hreplies Hchoice Hplatform Hempty).
        eexists _, _, _, _. split; [reflexivity |]. by split. }
      rewrite (turn_reaches_check s choice platform reply rest
                 Hreplies Hchoice Hplatform Hurl).
      cbv [mbind M_bind mret M_ret]. rewrite platform_check_run.
      destruct (Platform.detect_platform _) as [detected|].
      * destruct (bool_decide _).
        -- right. cbn [negb]. eexists _, _, _, _, _. by split.
        -- cbn [confirm_replies prompt_replies download_history advance].
           rewrite advance_advance.
           destruct (next_reply (confirm_replies s)) as [[]|e]; cbn [negb].
           ++ right. eexists _, _, _, _, _. by split.
           ++ left. eexists _, _, _, _. split; [reflexivity |]. by split.
           ++ left. eexists _, _, _, _. split; [reflexivity |]. by split.
      * right. cbn [negb]. eexists _, _, _, _, _. by split.
    + left. run_head. rewrite Hreplies. run_head.
      unfold Str.eqb. rewrite (bool_decide_eq_false_2 _ Hchoice).
      run_head. rewrite Hplatform. run_head.
      eexists _, [_; _; _; _; _; _; _; _], _, _. unfold advance.
      rewrite <- ?app_assoc. split; [reflexivity |]. by split.
  - left. run_head. rewrite Hreplies. run_head.
    eexists _, [_; _; _; _], _, _. unfold advance. rewrite <- ?app_assoc.
    split; [reflexivity |]. by split.
Qed.

Lemma balanced_iteration s : balanced s (snd (iteration s)).
Proof.
  destruct (iteration_turn_cases s)
    as [(r & evs & pr & cr & -> & Hquiet & _)
       | (url & platform & evs & pr & cr & -> & Hquiet)].
  - by apply balanced_advance.
  - eapply balanced_trans; [by apply balanced_advance |].
    apply balanced_download_step.
Qed.

Lemma iteration_break s s' :
  iteration s = (Ok Break, s') → said_goodbye s'.
Proof.
  destruct (iteration_turn_cases s)
    as [(r & evs & pr & cr & -> & _ & Hbye)
       | (url & platform & evs & pr & cr & -> & _)].
  - intros [= -> <-]. destruct (Hbye eq_refl) as (pre & bye & -> & Hgoodbye).
    exists (console_log s ++ pre), bye. cbn. by rewrite app_assoc.
  - apply download_step_break.
Qed.

Lemma balanced_run_loop fuel s : balanced s (snd (run_loop fuel s)).
Proof.
  revert s; induction fuel as [|fuel IH]; intros s; [apply balanced_refl |].
  cbn [run_loop]. cbv [mbind M_bind mret M_ret].
  pose proof (balanced_iteration s) as Hturn.
  destruct (iteration s) as [[[]|e] s']; cbn [snd] in *; try done.
  eapply balanced_trans; [exact Hturn | apply IH].
Qed.

Lemma run_loop_break fuel s :
  fst (run_loop fuel s) = Ok (Some tt) → said_goodbye (snd (run_loop fuel s)).
Proof.
  revert s; induction fuel as [|fuel IH]; intros s; [done |].
  cbn [run_loop]. cbv [mbind M_bind mret M_ret].
  destruct (iteration s) as [[[]|e] s'] eqn:Hturn; cbn [fst snd]; try done.
  - apply IH.
  - intros _. by eapply iteration_break.
Qed.

Lemma statistics_rows_length (l : list (Z * pyval)) rows :
  statistics_rows l = Ok rows → length rows = length l.
Proof.
  revert rows; induction l as [|it l IH]; intros rows; cbn.
  - by intros [= <-].
  - destruct (statistics_row it); [| done].
    destruct (statistics_rows l) as [rows'|]; [| done].
    intros [= <-]. cbn. by rewrite (IH rows').
Qed.

Lemma enumerate_length {A} (i : Z) (l : list A) : length (enumerate i l) = length l.
Proof. revert i; induction l as [|x l IH]; intros i; cbn; [done | by rewrite IH]. Qed.

Lemma hook_calls_downloading (ds : list (gmap string pyval)) (h : DownloadProgressHook) :
  progress h = true →
  Forall (fun d => d !! "status" = Some (PStr "downloading")) ds →
  hook_calls ds h =
    (Ok tt, h,
     map (fun d => ProgressUpdate (dict_get d "downloaded_bytes" (PInt 0))) ds).
Proof.
  intros Hp. induction 1 as [|d ds Hd _ IH]; cbn; [done |].
  unfold hook_call. rewrite Hd, Hp.
  rewrite bool_decide_eq_true_2 by done. by rewrite IH.
Qed.

Lemma hook_calls_app ds ds' h :
  hook_calls (ds ++ ds') h =
    match hook_calls ds h with
    | (Ok _, h', evs) =>
        match hook_calls ds' h' with
        | (r, h'', evs') => (r, h'', evs ++ evs')
        end
    | (Raise e, h', evs) => (Raise e, h', evs)
    end.
Proof.
  revert h; induction ds as [|d ds IH]; intros h; cbn.
  - by destruct (hook_calls ds' h) as [[r h'] evs].
  - destruct (hook_call d h) as [[[[]|e] h1] evs1]; [| done].
    rewrite IH. destruct (hook_calls ds h1) as [[[[]|e] h2] evs2]; [| done].
    destruct (hook_calls ds' h2) as [[r h3] evs3]. by rewrite app_assoc.
Qed.

Lemma balanced_run s : balanced s (snd (run s)).
Proof.
  unfold run. cbv [mbind M_bind mret M_ret show_banner emit get].
  eapply balanced_trans; [| apply balanced_run_loop].
  by apply balanced_advance.
Qed.


(** ** Further properties *)

(** X1.  Whatever signals the hook receives, it never holds two displays:
    a display is started only when none is live, tasks, updates and stops
    go to a live display only, and at the end the hook holds a display
    exactly when one was started and not stopped. *)
Theorem hook_keeps_one_display ds h :
  let '(r, h', evs) := hook_calls ds h in
  displays (progress h) evs = Some (progress h').
Proof.
  revert h; induction ds as [|d ds IH]; intros h; cbn; [done |].
  pose proof (hook_call_displays d h) as Hd.
  destruct (hook_call d h) as [[[[]|e] h1] evs1]; cbn in Hd; [| done].
  specialize (IH h1). destruct (hook_calls ds h1) as [[r h2] evs2].
  by rewrite displays_app, Hd.
Qed.

(** X2.  An idle hook that receives the signals of one transfer, one or
    more [downloading] and then [finished], starts one display with one
    task whose total is the size hint of the first signal, updates it once
    per [downloading] signal, stops it, and is idle again. *)
Theorem hook_draws_one_transfer (first : gmap string pyval)
    (more : list (gmap string pyval)) (final : gmap string pyval)
    (h : DownloadProgressHook) :
  progress h = false →
  Forall (fun d => d !! "status" = Some (PStr "downloading")) (first :: more) →
  final !! "status" = Some (PStr "finished") →
  hook_calls (first :: more ++ [final]) h =
    (Ok tt, {| progress := false; task := true |},
     [ProgressStart; AddTask "Downloading..." (total_hint first)] ++
     map (fun d => ProgressUpdate (dict_get d "downloaded_bytes" (PInt 0)))
         (first :: more) ++
     [ProgressStop]).
Proof.
  intros Hidle Hdown Hfinal.
  apply Forall_cons in Hdown as [Hfirst Hmore].
  cbn [hook_calls]. unfold hook_call at 1. rewrite Hfirst, Hidle.
  rewrite bool_decide_eq_true_2 by done.
  rewrite hook_calls_app,
    (hook_calls_downloading more {| progress := true; task := true |} eq_refl Hmore).
  cbn [hook_calls]. unfold hook_call. rewrite Hfinal.
  rewrite bool_decide_eq_false_2 by done.
  rewrite bool_decide_eq_true_2 by done. reflexivity.
Qed.


(** X4.  A call of [download_video] that returns has reported its outcome
    exactly once, as the last thing it shows: the success panel when it
    returns [True], the error panel or the cancellation notice when it
    returns [False]. *)
Theorem download_video_reports_once url platform s b :
  let evs := emitted s (snd (download_video url platform s)) in
  fst (download_video url platform s) = Ok b →
  length (List.filter is_report evs) = 1%nat ∧
  ∃ report, last evs = Some report ∧ is_report report = true ∧
    (b = true ↔ is_success_panel report = true).
Proof.
  intros evs. subst evs.
  run_cases url platform s;
    try (destruct (is_Exception e) eqn:Hcaught; cbn [fst snd app] in * );
    intros [= <-]; (split; [reflexivity |]);
    eexists; (split; [reflexivity |]); done.
Qed.

(** X5.  [download_video] leaves the output directory, the platforms, the
    extractor and the replies to the text prompts alone; it only adds to
    the log, asks at most one question, and takes as many replies from the
    confirmations as it asked questions. *)
Theorem download_video_frame url platform s :
  let s' := snd (download_video url platform s) in
  let evs := emitted s s' in
  output_dir s' = output_dir s ∧ platforms s' = platforms s ∧ ydl s' = ydl s ∧
  prompt_replies s' = prompt_replies s ∧
  console_log s' = console_log s ++ evs ∧
  (length (List.filter is_question evs) ≤ 1)%nat ∧
  confirm_replies s' =
    drop (length (List.filter is_question evs)) (confirm_replies s).
Proof.
  intros s' evs. subst s' evs.
  run_cases url platform s;
    try (destruct (is_Exception e) eqn:Hcaught; cbn [fst snd app] in * );
    cbn [output_dir platforms ydl console_log];
    repeat split; try reflexivity; cbn; try lia;
    by destruct (confirm_replies s).
Qed.


(** X7.  Metadata in which [duration] is present with the value [None] is
    not covered by the default of [info.get('duration', 0)]: [int(None)]
    raises, so [download_video] shows the error panel and returns [False]
    before any table or question, without taking a reply. *)
Theorem duration_None_fails_before_confirmation url platform s opts info :
  let evs := emitted s (snd (download_video url platform s)) in
  ExtractInfo url opts (Ok info) ∈ evs →
  info !! "duration" = Some PNone →
  fst (download_video url platform s) = Ok false ∧
  evs = [ Status fetching_status; ExtractInfo url opts (Ok info);
          Print ""; ErrorPanel (exn_msg int_of_None) ] ∧
  confirm_replies (snd (download_video url platform s)) = confirm_replies s ∧
  download_history (snd (download_video url platform s)) = download_history s.
Proof.
  intros evs Hev Hduration. subst evs.
  assert (video_info_rows info = Raise int_of_None) as Hrows.
  { unfold video_info_rows, dict_get. by rewrite Hduration. }
  run_cases url platform s;
    try (destruct (is_Exception e) eqn:Hcaught; cbn [fst snd app] in * );
    elem_inv Hev; injection Hev as <- <-; try congruence.
  - rewrite Hrows in *. by simplify_eq.
  - rewrite Hrows in *. by simplify_eq.
Qed.


(** X9.  For every integer duration the cell is N/A when the duration is
    0 and otherwise minutes and seconds with the seconds between 0 and 59,
    also for a negative duration (floor division); the call never fails. *)
Theorem duration_of_int (n : Z) :
  ∃ minutes seconds,
    n = 60 * minutes + seconds ∧ 0 ≤ seconds < 60 ∧
    format_duration (PInt n) =
      Ok (if n =? 0 then "N/A"
          else Str.of_Z minutes +:+ "m " +:+ Str.of_Z seconds +:+ "s").
Proof.
  exists (n / 60), (n mod 60). split; [| split].
  - apply Z.div_mod. lia.
  - apply Z.mod_pos_bound. lia.
  - unfold format_duration. cbn. by destruct (n =? 0).
Qed.

(** X10.  For a file size from 0 up to 2^53 bytes the cell is the size in
    units of 1024 * 1024 bytes with two decimals, the hundredths being a
    nearest integer to the exact quotient; no exception is raised. *)
Theorem filesize_in_megabytes (n : Z) :
  0 ≤ n < 2 ^ 53 →
  ∃ h,
    format_filesize (PInt n) =
      Ok (PStr (Str.of_Z (h / 100) +:+ "." +:+ Py.two_digits (h mod 100) +:+ " MB")) ∧
    2 * Z.abs (1024 * 1024 * h - 100 * n) ≤ 1024 * 1024.
Proof.
  intros [Hlow Hhigh].
  exists (Py.round_half_even (n * 100) (2 ^ 20)). split.
  - unfold format_filesize, Py.true_div_MiB.
    destruct (n =? 0) eqn:Hzero.
    + apply Z.eqb_eq in Hzero as ->. reflexivity.
    + apply Z.eqb_neq in Hzero.
      assert (Z.log2 (Z.abs n) < 53) as Hbits.
      { apply Z.log2_lt_pow2; lia. }
      replace (Z.max 0 (Z.log2 (Z.abs n) + 1 - 53)) with 0 by lia.
      replace (Py.round_half_even (Z.abs n) (2 ^ 0)) with n.
      2: { unfold Py.round_half_even. change (2 ^ 0) with 1.
           rewrite Z.div_1_r, Z.mod_1_r.
           change (2 * 0 <? 1) with true. cbn iota. lia. }
      change (0 - Z.log2 (1024 * 1024)) with (-20).
      cbn [Z.leb Z.compare andb].
      replace (Z.sgn n * n) with n by nia.
      unfold Py.format_2f. cbn [Z.leb Z.compare Z.opp].
      replace (Z.abs n) with n by lia.
      replace (n <? 0) with false by lia.
      change (- (-20)) with 20. rewrite !append_assoc. reflexivity.
  - pose proof (round_half_even_near (n * 100) (2 ^ 20) ltac:(lia)) as H.
    change (2 ^ 20) with (1024 * 1024) in *.
    replace (100 * n) with (n * 100) by lia. exact H.
Qed.

(** X11.  The view count with separators: taking the commas out gives the
    decimal text of the number back, and there is one comma for every full
    group of three digits after the first digit. *)
Theorem views_with_separators (z : Z) :
  ∃ cell,
    format_views (PInt z) = PStr cell ∧
    remove_commas cell = Str.of_Z z ∧
    String.length cell =
      (String.length (Str.of_Z z)
       + (String.length (Str.of_Z (Z.abs z)) - 1) / 3)%nat.
Proof.
  exists (Py.format_thousands z). split; [reflexivity |].
  assert (∀ d, remove_commas (NilZero.string_of_uint d) = NilZero.string_of_uint d)
    as Hdigits.
  { intros d. unfold NilZero.string_of_uint. destruct d; try apply remove_commas_uint.
    reflexivity. }
  assert (∀ s, String.length (string_of_list_ascii
                  (match rev (list_ascii_of_string s) with
                   | [] => []
                   | c :: rest => Py.group3 rest 2 [c]
                   end)) =
               (String.length s + (String.length s - 1) / 3)%nat) as Hlen.
  { intros s.
    assert (∀ l, String.length (string_of_list_ascii l) = length l) as Hsl.
    { induction l as [|c l IH]; cbn; [done | by rewrite IH]. }
    rewrite Hsl.
    rewrite <- (string_of_list_ascii_of_string s) at 2 3. rewrite !Hsl.
    rewrite <- (length_rev (list_ascii_of_string s)).
    destruct (rev (list_ascii_of_string s)) as [|c rest]; [done |].
    rewrite group3_length by lia. cbn [length].
    replace (length rest + 2 - 2)%nat with (S (length rest) - 1)%nat by lia. lia. }
  unfold Py.format_thousands, Str.of_Z.
  destruct z as [|p|p]; cbn [Z.abs Z.ltb Z.compare Z.to_int].
  - split; reflexivity.
  - cbn [NilZero.string_of_int]. split.
    + apply remove_commas_grouped, Hdigits.
    + apply Hlen.
  - cbn [NilZero.string_of_int]. split.
    + cbn. f_equal. apply remove_commas_grouped, Hdigits.
    + change (Z.to_int (Z.abs (Z.neg p))) with (Decimal.Pos (Pos.to_uint p)).
      cbn [NilZero.string_of_int].
      change ("-" +:+ ?x) with (String "-" x).
      cbn [String.length]. rewrite Hlen. lia.
Qed.



(** X14.  A text that contains a domain of a catalog platform anywhere, in
    the host, the path or the query, is always detected: as that platform
    or as one before it in the catalog, and as YouTube whenever it contains
    a YouTube domain. *)
Theorem known_domain_anywhere_is_detected (p : PlatformConfig) (d a b : string) :
  p ∈ Platform.values Platform.get_all →
  d ∈ domains p →
  ∃ before q after,
    Platform.values Platform.get_all = before ++ q :: after ∧
    Platform.detect_platform (a +:+ d +:+ b) = Some q ∧
    p ∈ q :: after ∧
    (p = Platform.YOUTUBE → q = Platform.YOUTUBE).
Proof.
  intros Hp Hd.
  assert (matches p (a +:+ d +:+ b)) as Hmatch.
  { exists d. split; [done |]. by exists a, d, b. }
  destruct (Platform.detect_platform (a +:+ d +:+ b)) as [q|] eqn:Hdetect.
  - apply detect_in_Some in Hdetect as (before & after & Hcat & _ & Hnone);
      [| apply catalog_lowercase].
    exists before, q, after. split; [done |]. split; [done |].
    assert (p ∉ before) as Hnotin.
    { intros Hin. by apply (proj1 (Forall_forall _ _) Hnone p). }
    split.
    + rewrite Hcat in Hp. apply elem_of_app in Hp as [Hin | Hin]; done.
    + intros ->. destruct before as [|x before]; cbn in Hcat.
      * by injection Hcat as <- _.
      * injection Hcat as <- _. exfalso. apply Hnotin. apply list_elem_of_here.
  - apply detect_in_None in Hdetect; [| apply catalog_lowercase].
    exfalso. by apply (proj1 (Forall_forall _ _) Hdetect p).
Qed.

(** X15.  In a session with the catalog of [__init__], entering one of
    the example URLs that the guide shows for the chosen platform is
    detected as that platform and leads to the download step with no
    warning and no question. *)
Theorem guide_example_passes_check s key platform example rest :
  platforms s = Platform.get_all →
  (key, platform) ∈ Platform.get_all →
  example ∈ examples platform →
  prompt_replies s = Ok key :: Ok example :: rest →
  Platform.detect_platform example = Some platform ∧
  iteration s =
    download_step example platform
      (advance s (menu_events s (Ok key) ++ guide_events platform (Ok example))
         rest (confirm_replies s) (download_history s)).
Proof.
  intros Hplatforms Hkey Hexample Hreplies.
  assert (key ≠ "0" ∧ Platform.getitem Platform.get_all key = Some platform ∧
          Str.strip example = example ∧ example ≠ "" ∧
          Platform.detect_platform example = Some platform) as (H0 & Hget & Hstrip & Hne & Hdet).
  { cbn in Hkey. elem_inv Hkey; injection Hkey as -> ->;
      cbn in Hexample; elem_inv Hexample; subst example;
      (split; [discriminate |]); (split; [reflexivity |]);
      (split; [reflexivity |]); (split; [discriminate | reflexivity]). }
  split; [done |].
  rewrite <- Hplatforms in Hget.
  rewrite <- Hstrip at 1.
  apply turn_without_mismatch; try done.
  - by rewrite Hstrip.
  - rewrite Hstrip, Hdet. by intros detected [= <-].
Qed.

(** X16.  Whenever [run] returns, the last things in the log are the
    statistics table, with one row per entry of the final history, if that
    history is not empty, and then the closing panel. *)
Theorem run_ends_with_goodbye s :
  fst (run s) = Ok (Some tt) →
  ∃ pre stats,
    console_log (snd (run s)) = pre ++ stats ++ farewell_events ∧
    (download_history (snd (run s)) = [] → stats = []) ∧
    (download_history (snd (run s)) ≠ [] →
       ∃ rows, stats = statistics_events rows ∧
               length rows = length (download_history (snd (run s)))).
Proof.
  unfold run. cbv [mbind M_bind mret M_ret show_banner emit get]. cbn [prompt_replies].
  intros Hrun. apply run_loop_break in Hrun as (pre & bye & Hlog & Hbye).
  apply goodbye_events_shape in Hbye as (_ & stats & -> & Hnone & Hsome).
  exists pre, stats. split; [done |]. split; [done |].
  intros Hne. destruct (Hsome Hne) as (rows & Hrows & ->).
  exists rows. split; [done |].
  by rewrite (statistics_rows_length _ _ Hrows), enumerate_length.
Qed.

(** X17.  Over a whole run, the history grows by exactly as many entries
    as success panels are shown. *)
Theorem history_counts_success_panels s :
  length (download_history (snd (run s))) =
    (length (download_history s)
     + length (List.filter is_success_panel (emitted s (snd (run s)))))%nat.
Proof.
  destruct (balanced_run s) as (evs & added & Hlog & Hhist & Hlen & _).
  rewrite (emitted_extend _ _ _ Hlog), Hhist, length_app. lia.
Qed.

(** X18.  Over a whole run, the extractor is asked to transfer exactly as
    often as the user accepted the question of [download_video], and a
    success panel is shown exactly as often as a transfer went through. *)
Theorem transfers_match_consents s :
  let evs := emitted s (snd (run s)) in
  length (List.filter is_download evs) = length (List.filter is_consent evs) ∧
  length (List.filter is_success_panel evs) =
    length (List.filter is_completed evs).
Proof.
  destruct (balanced_run s) as (evs & added & Hlog & _ & _ & Hasked & Hdone).
  cbv zeta. by rewrite (emitted_extend _ _ _ Hlog).
Qed.

(** X19.  What [download_video] asks of the extractor: a transfer only of
    the URL it was given, with the options of the platform, at most once,
    and only after the probe of that URL answered and the user accepted the
    question. *)
Theorem transfer_needs_consent url platform s urls opts outcome :
  let evs := emitted s (snd (download_video url platform s)) in
  Download urls opts outcome ∈ evs →
  urls = [url] ∧ opts = ydl_options_for (output_dir s) platform ∧
  ∃ before after info,
    evs = before ++ Download urls opts outcome :: after ∧
    ExtractInfo url opts (Ok info) ∈ before ∧
    ConfirmAsk proceed_question true (Ok true) ∈ before ∧
    List.filter is_download (before ++ after) = [].
Proof.
  intros evs Hev. subst evs.
  run_cases url platform s;
    try (destruct (is_Exception e) eqn:Hcaught; cbn [fst snd app] in * );
    elem_inv Hev; injection Hev as <- <- <-;
    (split; [reflexivity |]); (split; [reflexivity |]);
    eexists [_; _; _; _; _; _; _], _, _;
    (split; [reflexivity |]); (split; [elem_now |]); (split; [elem_now |]);
    reflexivity.
Qed.


(** X21.  When the first prompt of the session raises (a closed input
    stream, an interrupt at the menu), [main] has shown the banner and the
    menu once and ends as its handlers say for that exception. *)
Theorem main_first_prompt_raises yt prompts confirms e :
  next_reply prompts = Raise e →
  main (Ok tt) yt prompts confirms =
    main_handler e
      (BannerText :: menu_events (new_downloader yt prompts confirms) (Raise e)).
Proof.
  intros Hreply. unfold main, run.
  cbv [mbind M_bind mret M_ret show_banner emit get]. cbn [prompt_replies new_downloader].
  cbn [run_loop]. cbv [mbind M_bind mret M_ret].
  run_head. cbn [new_downloader prompt_replies]. rewrite Hreply. reflexivity.
Qed.

(** X22.  With the catalog of [__init__], every choice that the prompt
    offers other than 0 selects a platform without a [KeyError], and the
    menu shows that platform, and no other row, under that number. *)
Theorem menu_agrees_with_selection s choice :
  platforms s = Platform.get_all →
  choice ∈ platform_choices →
  choice ≠ "0" →
  ∃ platform,
    platforms_getitem choice s = (Ok platform, s) ∧
    [choice; name platform; icon platform; "[green]✓ Active[/green]"]
      ∈ platforms_menu_rows (platforms s) ∧
    ∀ row, row ∈ platforms_menu_rows (platforms s) →
      head row = Some choice →
      row = [choice; name platform; icon platform; "[green]✓ Active[/green]"].
Proof.
  intros Hplatforms Hchoice Hexit. unfold platforms_getitem. rewrite Hplatforms.
  unfold platform_choices in Hchoice.
  elem_inv Hchoice; subst choice; try done;
    (eexists; split; [reflexivity |]; split; [cbn; elem_now |]);
    intros row Hrow Hhead; cbn in Hrow; elem_inv Hrow; subst row;
    first [reflexivity | discriminate Hhead].
Qed.

End Downloader.

(** ** The theorems at work on the sample session *)

(** C1 on a download that goes through: the title enters the history. *)
Lemma download_history_grows_on_success_witness :
  let s := new_downloader sample_extractor [] [Ok true] in
  let run := download_video sample_float_repr sample_int_of_str
               sample_url Platform.YOUTUBE s in
  fst run = Ok true ∧
  download_history (snd run) = [PStr "Never Gonna Give You Up"].
Proof.
  intros s run.
  destruct (download_history_grows_on_success
              sample_float_repr sample_int_of_str sample_url Platform.YOUTUBE s)
    as (Hsuccess & Hadded & _).
  assert (probe_succeeded sample_url sample_info (emitted s (snd run))) as Hprobe.
  { exists (ydl_options_for "downloads" Platform.YOUTUBE). vm_compute. elem_now. }
  assert (confirmation_accepted (emitted s (snd run))) as Hconfirm.
  { unfold confirmation_accepted. vm_compute. elem_now. }
  assert (fetch_succeeded sample_url (emitted s (snd run))) as Hfetch.
  { exists (ydl_options_for "downloads" Platform.YOUTUBE). vm_compute. elem_now. }
  split.
  - apply Hsuccess. by exists sample_info.
  - apply (Hadded sample_info Hprobe Hconfirm Hfetch).
Defined.


(** C4 on a probe that succeeds and a user who declines. *)
Lemma declined_confirmation_cancels_witness :
  let s := new_downloader sample_extractor [] [Ok false] in
  let run := download_video sample_float_repr sample_int_of_str
               sample_url Platform.YOUTUBE s in
  fst run = Ok false ∧
  last (emitted s (snd run)) = Some (Print cancelled_notice) ∧
  List.filter is_error_panel (emitted s (snd run)) = [] ∧
  List.filter is_download (emitted s (snd run)) = [] ∧
  download_history (snd run) = download_history s ∧
  confirm_replies (snd run) = tail (confirm_replies s).
Proof.
  intros s run.
  apply (declined_confirmation_cancels sample_float_repr sample_int_of_str
           sample_url Platform.YOUTUBE s sample_info).
  - exists (ydl_options_for "downloads" Platform.YOUTUBE). vm_compute. elem_now.
  - unfold confirmation_declined. vm_compute. elem_now.
Defined.

(** C8 on a turn where the user picks YouTube and enters only blanks. *)
Lemma empty_url_returns_to_menu_witness :
  let s := new_downloader sample_extractor [Ok "1"; Ok "   "] [] in
  Platform.getitem (platforms s) "1" = Some Platform.YOUTUBE ∧
  Str.strip "   " = "" ∧
  iteration sample_float_repr sample_int_of_str s =
    (Ok Continue,
     advance s
       (menu_events s (Ok "1") ++ guide_events Platform.YOUTUBE (Ok "   ")
          ++ [Print empty_url_notice])
       [] (confirm_replies s) (download_history s)) ∧
  List.filter is_extractor_event
    (emitted s (snd (iteration sample_float_repr sample_int_of_str s))) = [].
Proof.
  intros s. split; [reflexivity |]. split; [reflexivity |].
  apply (empty_url_returns_to_menu sample_float_repr sample_int_of_str
           s "1" Platform.YOUTUBE "   " []).
  - reflexivity.
  - discriminate.
  - reflexivity.
  - reflexivity.
Defined.


(** C5 on a turn where the user picks Instagram, enters a YouTube URL and
    declines to continue. *)
Lemma platform_mismatch_asks_before_download_witness :
  let s := new_downloader sample_extractor [Ok "2"; Ok sample_url] [Ok false] in
  Platform.getitem (platforms s) "2" = Some Platform.INSTAGRAM ∧
  Platform.detect_platform sample_url = Some Platform.YOUTUBE ∧
  iteration sample_float_repr sample_int_of_str s =
    (Ok Continue,
     advance s
       ((menu_events s (Ok "2") ++ guide_events Platform.INSTAGRAM (Ok sample_url))
          ++ mismatch_events Platform.YOUTUBE Platform.INSTAGRAM (Ok false))
       [] [] []) ∧
  List.filter is_extractor_event
    (emitted s (snd (iteration sample_float_repr sample_int_of_str s))) = [].
Proof.
  intros s. split; [reflexivity |]. split; [reflexivity |].
  destruct (platform_mismatch_asks_before_download
              sample_float_repr sample_int_of_str
              s "2" Platform.INSTAGRAM sample_url [] sample_url) as [Hmismatch _].
  - reflexivity.
  - discriminate.
  - reflexivity.
  - reflexivity.
  - discriminate.
  - destruct (Hmismatch Platform.YOUTUBE) as (_ & Hdeclined & _).
    + reflexivity.
    + discriminate.
    + apply Hdeclined. reflexivity.
Defined.


(** X2 on a transfer of 100 bytes that is signalled twice before it ends. *)
Lemma hook_draws_one_transfer_witness :
  hook_calls [signal "downloading" 40; signal "downloading" 100; signal "finished" 100]
    new_hook =
    (Ok tt, {| progress := false; task := true |},
     [ProgressStart; AddTask "Downloading..." (PInt 100);
      ProgressUpdate (PInt 40); ProgressUpdate (PInt 100); ProgressStop]).
Proof.
  apply (hook_draws_one_transfer (signal "downloading" 40)
           [signal "downloading" 100] (signal "finished" 100) new_hook).
  - reflexivity.
  - repeat constructor.
  - reflexivity.
Defined.


(** X4 on a download that goes through. *)
Lemma download_video_reports_once_witness :
  let s := new_downloader sample_extractor [] [Ok true] in
  let run := download_video sample_float_repr sample_int_of_str
               sample_url Platform.YOUTUBE s in
  fst run = Ok true ∧
  length (List.filter is_report (emitted s (snd run))) = 1%nat ∧
  ∃ report, last (emitted s (snd run)) = Some report ∧ is_report report = true ∧
    (true = true ↔ is_success_panel report = true).
Proof.
  intros s run. split; [reflexivity |].
  apply (download_video_reports_once sample_float_repr sample_int_of_str
           sample_url Platform.YOUTUBE s true).
  reflexivity.
Defined.


(** X7 on a live stream, whose metadata holds [None] as the duration. *)
Lemma duration_None_fails_before_confirmation_witness :
  let s := new_downloader untimed_extractor [] [Ok true] in
  let run := download_video sample_float_repr sample_int_of_str
               sample_url Platform.YOUTUBE s in
  fst run = Ok false ∧
  emitted s (snd run) =
    [ Status fetching_status;
      ExtractInfo sample_url (ydl_options_for "downloads" Platform.YOUTUBE)
        (Ok untimed_info);
      Print ""; ErrorPanel (exn_msg int_of_None) ] ∧
  confirm_replies (snd run) = confirm_replies s ∧
  download_history (snd run) = download_history s.
Proof.
  intros s run.
  apply (duration_None_fails_before_confirmation sample_float_repr sample_int_of_str
           sample_url Platform.YOUTUBE s
           (ydl_options_for "downloads" Platform.YOUTUBE) untimed_info).
  - vm_compute. elem_now.
  - reflexivity.
Defined.


(** X10 on a file of ten mebibytes. *)
Lemma filesize_in_megabytes_witness :
  0 ≤ 10485760 < 2 ^ 53 ∧
  ∃ h,
    format_filesize (PInt 10485760) =
      Ok (PStr (Str.of_Z (h / 100) +:+ "." +:+ Py.two_digits (h mod 100) +:+ " MB")) ∧
    2 * Z.abs (1024 * 1024 * h - 100 * 10485760) ≤ 1024 * 1024.
Proof.
  split; [lia |]. apply (filesize_in_megabytes 10485760). lia.
Defined.

(** X14 on a link to a parcel service: its host ends in a domain of
    Twitter/X. *)
Lemma known_domain_anywhere_is_detected_witness :
  Platform.TWITTER ∈ Platform.values Platform.get_all ∧
  "x.com" ∈ domains Platform.TWITTER ∧
  ∃ before q after,
    Platform.values Platform.get_all = before ++ q :: after ∧
    Platform.detect_platform ("https://www.fede" +:+ "x.com" +:+ "/tracking") = Some q ∧
    Platform.TWITTER ∈ q :: after ∧
    (Platform.TWITTER = Platform.YOUTUBE → q = Platform.YOUTUBE).
Proof.
  assert (Platform.TWITTER ∈ Platform.values Platform.get_all) as Hp.
  { vm_compute. elem_now. }
  assert ("x.com" ∈ domains Platform.TWITTER) as Hd.
  { vm_compute. elem_now. }
  split; [exact Hp |]. split; [exact Hd |].
  exact (known_domain_anywhere_is_detected Platform.TWITTER "x.com"
           "https://www.fede" "/tracking" Hp Hd).
Defined.

(** X15 on a user who picks YouTube and enters the guide's first example. *)
Lemma guide_example_passes_check_witness :
  let s :=
    new_downloader sample_extractor
      [Ok "1"; Ok "https://www.youtube.com/watch?v=dQw4w9WgXcQ"] [Ok false] in
  Platform.detect_platform "https://www.youtube.com/watch?v=dQw4w9WgXcQ" =
    Some Platform.YOUTUBE ∧
  iteration sample_float_repr sample_int_of_str s =
    download_step sample_float_repr sample_int_of_str
      "https://www.youtube.com/watch?v=dQw4w9WgXcQ" Platform.YOUTUBE
      (advance s
         (menu_events s (Ok "1") ++
          guide_events Platform.YOUTUBE
            (Ok "https://www.youtube.com/watch?v=dQw4w9WgXcQ"))
         [] (confirm_replies s) (download_history s)).
Proof.
  intros s.
  apply (guide_example_passes_check sample_float_repr sample_int_of_str
           s "1" Platform.YOUTUBE "https://www.youtube.com/watch?v=dQw4w9WgXcQ" []).
  - reflexivity.
  - vm_compute. elem_now.
  - vm_compute. elem_now.
  - reflexivity.
Defined.

(** X16 on a session with one download, another turn asked for, and the
    exit. *)
Lemma run_ends_with_goodbye_witness :
  let s :=
    new_downloader sample_extractor [Ok "1"; Ok sample_url; Ok "0"]
      [Ok true; Ok true] in
  let end_ := run sample_float_repr sample_int_of_str s in
  fst end_ = Ok (Some tt) ∧
  download_history (snd end_) = [PStr "Never Gonna Give You Up"] ∧
  ∃ pre stats,
    console_log (snd end_) = pre ++ stats ++ farewell_events ∧
    (download_history (snd end_) = [] → stats = []) ∧
    (download_history (snd end_) ≠ [] →
       ∃ rows, stats = statistics_events rows ∧
               length rows = length (download_history (snd end_))).
Proof.
  intros s end_. split; [vm_compute; reflexivity |].
  split; [vm_compute; reflexivity |].
  apply (run_ends_with_goodbye sample_float_repr sample_int_of_str s).
  vm_compute. reflexivity.
Defined.

(** X21 on a session whose input is closed from the start. *)
Lemma main_first_prompt_raises_witness :
  next_reply (@nil (result string)) = Raise end_of_input ∧
  main sample_float_repr sample_int_of_str (Ok tt) sample_extractor [] [] =
    (Exit 1,
     BannerText :: menu_events (new_downloader sample_extractor [] []) (Raise end_of_input)
       ++ [Print (unexpected_error end_of_input)]).
Proof.
  split; [reflexivity |].
  apply (main_first_prompt_raises sample_float_repr sample_int_of_str
           sample_extractor [] [] end_of_input).
  reflexivity.
Defined.

(** X19 on a download that goes through. *)
Lemma transfer_needs_consent_witness :
  let s := new_downloader sample_extractor [] [Ok true] in
  let opts := ydl_options_for "downloads" Platform.YOUTUBE in
  let evs := emitted s (snd (download_video sample_float_repr sample_int_of_str
                               sample_url Platform.YOUTUBE s)) in
  Download [sample_url] opts (Ok tt) ∈ evs ∧
  ∃ before after info,
    evs = before ++ Download [sample_url] opts (Ok tt) :: after ∧
    ExtractInfo sample_url opts (Ok info) ∈ before ∧
    ConfirmAsk proceed_question true (Ok true) ∈ before ∧
    List.filter is_download (before ++ after) = [].
Proof.
  intros s opts evs.
  assert (Download [sample_url] opts (Ok tt) ∈ evs) as Hev.
  { vm_compute. elem_now. }
  split; [exact Hev |].
  destruct (transfer_needs_consent sample_float_repr sample_int_of_str
              sample_url Platform.YOUTUBE s [sample_url] opts (Ok tt) Hev)
    as (_ & _ & Hshape).
  exact Hshape.
Defined.

(** X22 on the third entry of the menu. *)
Lemma menu_agrees_with_selection_witness :
  let s := new_downloader sample_extractor [] [] in
  "3" ∈ platform_choices ∧
  ∃ platform,
    platforms_getitem "3" s = (Ok platform, s) ∧
    ["3"; name platform; icon platform; "[green]✓ Active[/green]"]
      ∈ platforms_menu_rows (platforms s) ∧
    ∀ row, row ∈ platforms_menu_rows (platforms s) →
      head row = Some "3" →
      row = ["3"; name platform; icon platform; "[green]✓ Active[/green]"].
Proof.
  intros s.
  assert ("3" ∈ platform_choices) as Hchoice.
  { vm_compute. elem_now. }
  split; [exact Hchoice |].
  apply (menu_agrees_with_selection s "3" eq_refl Hchoice). discriminate.
Defined.
